(** * nbscan: searching cells of Jupyter notebooks

    A shallow embedding of [nbscan.py] and the properties of its file
    selection, cell filtering and output stages.

    The script is sequential.  Its effects are: lines printed on standard
    output, the prompt written by [input], the notebooks handed to
    [nbformat.read], and termination by [exit] or by an uncaught exception.
    They are modelled by a writer of events with an outcome.  What the
    script obtains from outside (the file system, the notebook reader, the
    regular-expression library, the line typed at the prompt, the random
    numbers, the order in which a set is iterated, the version of
    [random.sample]) is gathered in a record [world]. *)

From Stdlib Require Import Ascii String.
From stdpp Require Import gmap sets list strings sorting pretty.

Open Scope string_scope.
Open Scope list_scope.

(** ** Python strings *)

Module Py.

(** [sub in s] *)
Fixpoint contains (s sub : string) : bool :=
  String.prefix sub s ||
  match s with
  | "" => false
  | String _ s' => contains s' sub
  end.

(** [s.startswith(p)] *)
Definition startswith (s p : string) : bool := String.prefix p s.

(** [s.endswith(suffix)]: some tail of [s] is [suffix]. *)
Fixpoint endswith (s suffix : string) : bool :=
  String.eqb s suffix ||
  match s with
  | "" => false
  | String _ s' => endswith s' suffix
  end.

(** [s[i:j]] for [0 <= i], [0 <= j] *)
Definition slice (s : string) (i j : nat) : string :=
  String.substring i (j - i) s.

(** [len(s)]: the number of characters of [s].  A string is the UTF-8
    bytes of its characters; the characters are counted by the bytes that
    do not continue one (the bytes outside [10xxxxxx]). *)
Definition continues (c : ascii) : bool :=
  let n := nat_of_ascii c in (128 <=? n)%nat && (n <? 192)%nat.

Fixpoint len (s : string) : nat :=
  match s with
  | "" => 0
  | String c s' => if continues c then len s' else S (len s')
  end.

(** [c * n] for a one-character string *)
Fixpoint repeat_char (c : ascii) (n : nat) : string :=
  match n with
  | O => ""
  | S n' => String c (repeat_char c n')
  end.

(** Truth value of a string, of an optional value and of a list that may
    be [None]. *)
Definition truthy_str (s : string) : bool := negb (String.eqb s "").

Definition truthy_opt_str (o : option string) : bool :=
  match o with
  | Some s => truthy_str s
  | None => false
  end.

Definition truthy_opt_list {A} (o : option (list A)) : bool :=
  match o with
  | Some (_ :: _) => true
  | _ => false
  end.

Definition truthy_opt_int (o : option Z) : bool :=
  match o with
  | Some n => negb (n =? 0)%Z
  | None => false
  end.

(** [os.path.join(a, b)] of posixpath, for two arguments. *)
Definition os_path_join (a b : string) : string :=
  if startswith b "/" then b
  else if String.eqb a "" || endswith a "/" then a +:+ b
  else a +:+ "/" +:+ b.

(** [sorted] on a list of strings: the order of [str] is the order of the
    code points, which on UTF-8 bytes is the order of the bytes. *)
Definition sorted (l : list string) : list string := merge_sort String.le l.

End Py.

(** ** Exceptions, outcomes and the event writer *)

Inductive exn :=
| NotJSONError (msg : string)
| UnicodeDecodeError (msg : string)
| ValueError (msg : string)
| ReError (msg : string)
| TypeError (msg : string)
| OtherError (msg : string).

(** [str(e)] *)
Definition exn_str (e : exn) : string :=
  match e with
  | NotJSONError m | UnicodeDecodeError m | ValueError m
  | ReError m | TypeError m | OtherError m => m
  end.

Inductive outcome (A : Type) :=
| Ret (a : A)
| Exit (status : Z)
| Raise (e : exn).
Arguments Ret {A} a.
Arguments Exit {A} status.
Arguments Raise {A} e.

Inductive event :=
| Print (line : string)          (* print(line): the line and a newline *)
| Prompt (text : string)         (* input(text): the text, no newline *)
| Read (fn : string) (ver : Z).  (* nbformat.read(fn, ver) *)

Definition M (A : Type) : Type := list event * outcome A.

Definition ret {A} (a : A) : M A := ([], Ret a).

Definition bind {A B} (m : M A) (f : A -> M B) : M B :=
  match m with
  | (tr, Ret a) => let '(tr', r) := f a in (tr ++ tr', r)
  | (tr, Exit c) => (tr, Exit c)
  | (tr, Raise e) => (tr, Raise e)
  end.

Notation "x <- m ;; k" := (bind m (fun x => k))
  (at level 100, m at next level, right associativity).
Notation "m ;;; k" := (bind m (fun _ => k))
  (at level 100, right associativity).

Definition emit (e : event) : M unit := ([e], Ret tt).
Definition print (line : string) : M unit := emit (Print line).
Definition exit {A} (status : Z) : M A := ([], Exit status).
Definition raise {A} (e : exn) : M A := ([], Raise e).

(** A [for] loop whose body updates a local state. *)
Fixpoint for_each {A S} (l : list A) (body : S -> A -> M S) (s : S) : M S :=
  match l with
  | [] => ret s
  | x :: l' => s' <- body s x ;; for_each l' body s'
  end.

(** What the terminal shows: every printed line with its newline, the
    prompt as it is. *)
Definition newline : string := String "010"%char "".

Definition shown (e : event) : string :=
  match e with
  | Print line => line +:+ newline
  | Prompt text => text
  | Read _ _ => ""
  end.

Fixpoint stdout (tr : list event) : string :=
  match tr with
  | [] => ""
  | e :: tr' => shown e +:+ stdout tr'
  end.

(** The notebooks handed to the reader, in order. *)
Fixpoint reads (tr : list event) : list string :=
  match tr with
  | [] => []
  | Read fn _ :: tr' => fn :: reads tr'
  | _ :: tr' => reads tr'
  end.

(** The status the process ends with: an uncaught exception ends it with
    status 1. *)
Definition exit_status {A} (r : outcome A) : Z :=
  match r with
  | Ret _ => 0
  | Exit c => c
  | Raise _ => 1
  end.

(** ** The outside world *)

(** A file-system object: a regular file, or a directory with its entries
    by name. *)
#[warnings="-register-all"]
Inductive node :=
| File
| Dir (entries : list (string * node)).

(** A notebook as [nbformat] returns it.  The metadata of a cell is a
    dictionary whose entry ['nbgrader'], when there is one, is a dictionary
    too. *)
Record cell := {
  cell_type : string;
  metadata : gmap string (gmap string string);
  source : string
}.

Record notebook := { cells : list cell }.

Record world := {
  (** the object a path names, if any *)
  lookup_path : string -> option node;
  (** [nbformat.read(fn, ver)]: a notebook, or the exception raised *)
  nbformat_read : string -> Z -> exn + notebook;
  (** the spans [(start, end)] of the successive non-overlapping matches
      of a pattern in a text, ignoring case, as offsets in the text as it
      is held here, or the exception raised when the pattern does not
      compile *)
  re_finditer : string -> string -> exn + list (nat * nat);
  (** the line typed at the prompt *)
  stdin_line : string;
  (** the numbers that code the choice of the random generator *)
  random_draws : list nat;
  (** whether [random.sample] takes a set: it does before Python 3.11,
      and raises [TypeError] from then on *)
  sample_takes_sets : bool;
  (** the numbers that code the order in which a set of strings is
      iterated, given the strings in the order they were added to it; the
      order depends on these insertions and on the hash seed of the run *)
  set_order : list string -> list nat
}.

(** [os.path.isfile] *)
Definition isfile (w : world) (fn : string) : bool :=
  match lookup_path w fn with
  | Some File => true
  | _ => false
  end.

Definition is_dir (n : node) : bool :=
  match n with
  | Dir _ => true
  | File => false
  end.

Definition subdir_names (entries : list (string * node)) : list string :=
  map fst (List.filter (fun e => is_dir (snd e)) entries).

Definition file_names (entries : list (string * node)) : list string :=
  map fst (List.filter (fun e => negb (is_dir (snd e))) entries).

(** [os.walk(top)], top-down: the directory itself, then each
    subdirectory in turn.  Something that is not a directory yields
    nothing. *)
Fixpoint walk_node (top : string) (n : node)
  : list (string * list string * list string) :=
  match n with
  | File => []
  | Dir entries =>
      (top, subdir_names entries, file_names entries) ::
      (fix walk_entries (es : list (string * node)) :=
         match es with
         | [] => []
         | (name, child) :: es' =>
             walk_node (Py.os_path_join top name) child ++ walk_entries es'
         end) entries
  end.

Definition os_walk (w : world) (top : string)
  : list (string * list string * list string) :=
  match lookup_path w top with
  | Some n => walk_node top n
  | None => []
  end.

(** ** The command line *)

Record args := {
  args_files : list string;
  args_dir : option (list string);
  args_submitted : option (list string);
  args_random : option Z;
  args_grep : option string;
  args_prompt : bool;
  args_id : option string;
  args_code : bool;
  args_markdown : bool;
  args_tags : bool;
  args_nbformat : Z;
  args_plain : bool
}.

(** A value that is a string, a boolean or [None], as the pattern handed to
    [scan_files] is. *)
Inductive pyval :=
| PStr (s : string)
| PBool (b : bool)
| PNone.

Definition truthy (v : pyval) : bool :=
  match v with
  | PStr s => Py.truthy_str s
  | PBool b => b
  | PNone => false
  end.

(** [x or y] and [x and y] *)
Definition py_or (x y : pyval) : pyval := if truthy x then x else y.
Definition py_and (x y : pyval) : pyval := if truthy x then y else x.

Definition of_opt_str (o : option string) : pyval :=
  match o with
  | Some s => PStr s
  | None => PNone
  end.

(** ** The regular-expression library *)

(** [re.search(pattern, text, re.IGNORECASE)]: the first match, if any. *)
Definition re_search (w : world) (pattern : pyval) (text : string)
  : M (option (nat * nat)) :=
  match pattern with
  | PStr p =>
      match re_finditer w p text with
      | inl e => raise e
      | inr spans => ret (head spans)
      end
  | _ => raise (TypeError "first argument must be string or compiled pattern")
  end.

(** The text with every span replaced by [repl] of the matched text;
    [pos] is where the previous span ended. *)
Fixpoint splice (repl : string -> string) (spans : list (nat * nat))
    (pos : nat) (text : string) : string :=
  match spans with
  | [] => Py.slice text pos (String.length text)
  | (b, e) :: spans' =>
      Py.slice text pos b +:+ repl (Py.slice text b e) +:+
      splice repl spans' e text
  end.

(** [re.sub(pattern, lambda m: repl(m.group(0)), text, flags=re.IGNORECASE)] *)
Definition re_sub (w : world) (pattern : pyval) (repl : string -> string)
    (text : string) : M string :=
  match pattern with
  | PStr p =>
      match re_finditer w p text with
      | inl e => raise e
      | inr spans => ret (splice repl spans 0 text)
      end
  | _ => raise (TypeError "first argument must be string or compiled pattern")
  end.

(** ** [random.sample] *)

(** A choice of [k] elements at distinct places of a pool, coded by
    numbers: [k] times, the number read gives an index [j] below the
    number [m] of elements still in play, the element there is taken and
    the last element in play is moved to [j].  This is how
    [random.sample] selects in a small population; in a large one it
    draws indices until it finds a fresh one.  Either way the result is
    an arrangement of [k] elements at distinct places, and every such
    arrangement is the choice some numbers code ([sample_pool_reaches]
    below). *)
Fixpoint sample_pool (draws : list nat) (pool : list string) (m k : nat)
  : list string :=
  match k with
  | O => []
  | S k' =>
      let j := (hd 0 draws) `mod` m in
      (pool !!! j) ::
      sample_pool (tl draws) (<[j := pool !!! (m - 1)]> pool) (m - 1) k'
  end.

(** [random.sample(population, k)] for a sequence. *)
Definition random_sample (w : world) (population : list string) (k : Z)
  : M (list string) :=
  let n := length population in
  if (0 <=? k)%Z && (k <=? Z.of_nat n)%Z
  then ret (sample_pool (random_draws w) population n (Z.to_nat k))
  else raise (ValueError "Sample larger than population or is negative").

(** [tuple(s)] for a set: its elements in the order the set iterates
    them, which is some order, the one the numbers [order] code. *)
Definition iteration_order (order : list nat) (s : gset string) : list string :=
  let l := elements s in
  sample_pool order l (length l) (length l).

(** [random.sample(s, k)] for a set.  Before Python 3.11 the set is turned
    into a tuple first (with a warning on the standard error from 3.9
    on); from 3.11 on a population that is not a sequence is refused,
    whatever [k] is. *)
Definition random_sample_of_set (w : world) (order : list nat)
    (s : gset string) (k : Z) : M (list string) :=
  if sample_takes_sets w
  then random_sample w (iteration_order order s) k
  else raise (TypeError
                "Population must be a sequence.  For dicts or sets, use sorted(d).").

(** ** File selection: [build_file_list] *)

Section build_file_list.
Context (w : world) (a : args).

Definition filter_argv_files (files : gset string) : M (gset string) :=
  st <- for_each (args_files a)
          (fun '(files, all_found) fn =>
             if isfile w fn
             then ret ({[fn]} ∪ files, all_found)
             else print ("No such file: " +:+ fn) ;;; ret (files, false))
          (files, true) ;;
  if negb st.2 then exit 1 else ret st.1.

Definition add_files_in_dir (files : gset string) (dirnames : list string)
    (projects : option (list string)) : gset string :=
  foldl (fun files dn =>
    foldl (fun files '(path, _, fnames) =>
      if Py.contains path "/." then files
      else if Py.truthy_opt_list projects &&
              negb (existsb (fun p => Py.contains path p)
                      (default [] projects))
      then files
      else
        foldl (fun files fn =>
                 if Py.endswith fn ".ipynb"
                 then {[Py.os_path_join path fn]} ∪ files
                 else files)
              files fnames)
      files (os_walk w dn))
    files dirnames.

(** The paths in the order [add_files_in_dir] adds them to the set. *)
Definition added_in_dir (dirnames : list string)
    (projects : option (list string)) : list string :=
  flat_map (fun dn =>
    flat_map (fun '(path, _, fnames) =>
      if Py.contains path "/." then []
      else if Py.truthy_opt_list projects &&
              negb (existsb (fun p => Py.contains path p)
                      (default [] projects))
      then []
      else map (Py.os_path_join path)
             (List.filter (fun fn => Py.endswith fn ".ipynb") fnames))
      (os_walk w dn))
    dirnames.

(** The paths in the order they have been added to [file_set] when the
    script samples it. *)
Definition insertions : list string :=
  List.filter (isfile w) (args_files a) ++
  (if Py.truthy_opt_list (args_dir a)
   then added_in_dir (default [] (args_dir a)) None else []) ++
  (if Py.truthy_opt_list (args_submitted a)
   then added_in_dir ["submitted"] (args_submitted a) else []).

Definition build_file_list : M (list string) :=
  file_set <- filter_argv_files ∅ ;;
  let file_set :=
    if Py.truthy_opt_list (args_dir a)
    then add_files_in_dir file_set (default [] (args_dir a)) None
    else file_set in
  let file_set :=
    if Py.truthy_opt_list (args_submitted a)
    then add_files_in_dir file_set ["submitted"] (args_submitted a)
    else file_set in
  if (size file_set =? 0)%nat then
    print "No files to scan" ;;; exit 1
  else if Py.truthy_opt_int (args_random a) then
    l <- random_sample_of_set w (set_order w insertions) file_set
           (default 0%Z (args_random a)) ;;
    ret (Py.sorted l)
  else
    ret (Py.sorted (elements file_set)).

End build_file_list.

(** ** Scanning: [scan_files] *)

(** The three checks a cell goes through, and what becomes of the cell. *)
Inductive check := TypeFilter | TagFilter | PatternFilter.

Inductive verdict :=
| Rejected (by_check : check)   (* the [continue] after that check *)
| Retained.

(** The handlers of [scan_files] catch these two exceptions only. *)
Definition caught (e : exn) : bool :=
  match e with
  | NotJSONError _ | UnicodeDecodeError _ => true
  | _ => false
  end.

Definition esc : string := String "027"%char "".

Section scan_files.
Context (w : world) (a : args) (pattern : pyval).

Definition highlight (text : string) (cn : nat) : string :=
  esc +:+ "[03" +:+ pretty cn +:+ "m" +:+ text +:+ esc +:+ "[m".

Definition colorized (text : string) : M string :=
  if args_plain a || negb (truthy pattern) then ret text
  else re_sub w pattern (fun m => highlight m 4) text.

Definition print_cell_ids (fn : string) (lst : list string) : M unit :=
  print fn ;;;
  for_each lst (fun _ tag => print ("  " +:+ " " +:+ tag)) tt ;;;
  print "".

Definition print_hits (fn : string) (lst : list string) : M unit :=
  (if negb (args_plain a) then
     print (highlight fn 1) ;;;
     print (highlight (Py.repeat_char "=" (Py.len fn)) 1)
   else ret tt) ;;;
  for_each lst
    (fun _ source =>
       text <- colorized source ;;
       print text ;;;
       if negb (args_plain a) then print (highlight "---------" 1)
       else ret tt)
    tt ;;;
  print "".

(** [cell['metadata']['nbgrader'].get('grade_id')] when the metadata has
    an entry ['nbgrader'], [None] otherwise. *)
Definition cell_tag (c : cell) : option string :=
  match metadata c !! "nbgrader" with
  | Some nbgrader => nbgrader !! "grade_id"
  | None => None
  end.

(** ['code' if args.code else 'markdown' if args.markdown else None] *)
Definition wanted_cell_type : option string :=
  if args_code a then Some "code"
  else if args_markdown a then Some "markdown"
  else None.

(** The three guarded [continue] statements of the loop over the cells. *)
Definition examine (c : cell) : M verdict :=
  let tag := cell_tag c in
  if Py.truthy_opt_str wanted_cell_type &&
     negb (bool_decide (Some (cell_type c) = wanted_cell_type))
  then ret (Rejected TypeFilter)
  else if Py.truthy_opt_str (args_id a) &&
          negb (bool_decide (tag = args_id a))
  then ret (Rejected TagFilter)
  else if truthy pattern then
    m <- re_search w pattern (source c) ;;
    match m with
    | None => ret (Rejected PatternFilter)
    | Some _ => ret Retained
    end
  else ret Retained.

(** What a retained cell appends to [matches]. *)
Definition contribution (c : cell) : list string :=
  if args_tags a then
    match cell_tag c with
    | Some tag => [tag]
    | None => []
    end
  else [source c].

Definition scan_cell (matches : list string) (c : cell) : M (list string) :=
  v <- examine c ;;
  match v with
  | Rejected _ => ret matches
  | Retained => ret (matches ++ contribution c)
  end.

Definition scan_cells (nb : notebook) : M (list string) :=
  for_each (cells nb) scan_cell [].

(** The body of the loop over the files. *)
Definition scan_file (fn : string) : M unit :=
  emit (Read fn (args_nbformat a)) ;;;
  match nbformat_read w fn (args_nbformat a) with
  | inl e =>
      if caught e then print (exn_str e +:+ " " +:+ fn)
      else raise e
  | inr nb =>
      matches <- scan_cells nb ;;
      if (0 <? length matches)%nat then
        if args_tags a then print_cell_ids fn matches
        else print_hits fn matches
      else ret tt
  end.

Definition scan_files (files : list string) : M unit :=
  for_each files (fun _ fn => scan_file fn) tt.

End scan_files.

(** ** The program *)

(** [input(text)] *)
Definition input (w : world) (text : string) : M pyval :=
  emit (Prompt text) ;;; ret (PStr (stdin_line w)).

(** [args.grep or (args.prompt and pattern)] *)
Definition search_pattern (a : args) (pattern : pyval) : pyval :=
  py_or (of_opt_str (args_grep a)) (py_and (PBool (args_prompt a)) pattern).

(** The variable [pattern] is bound only when [--prompt] was given; it is
    read only then. *)
Definition main (w : world) (a : args) : M unit :=
  pattern <- (if args_prompt a then input w "pattern: " else ret PNone) ;;
  lst <- build_file_list w a ;;
  scan_files w a (search_pattern a pattern) lst.

(** ** A concrete world *)

(** Resolution of a relative path from the entries of the working
    directory, component by component. *)
Fixpoint split_path (p : string) (cur : string) : list string :=
  match p with
  | "" => [cur]
  | String c p' =>
      if Ascii.eqb c "/" then cur :: split_path p' ""
      else split_path p' (cur +:+ String c "")
  end.

Fixpoint find_entry (name : string) (entries : list (string * node))
  : option node :=
  match entries with
  | [] => None
  | (n, x) :: entries' =>
      if String.eqb n name then Some x else find_entry name entries'
  end.

Fixpoint descend (n : node) (names : list string) : option node :=
  match names with
  | [] => Some n
  | name :: names' =>
      match n with
      | File => None
      | Dir entries =>
          match find_entry name entries with
          | Some child => descend child names'
          | None => None
          end
      end
  end.

Definition resolve (cwd : node) (p : string) : option node :=
  if String.eqb p "" then None else descend cwd (split_path p "").

(** A small regular-expression engine for the concrete runs: it knows the
    patterns made of literal characters with an optional leading [^] and
    treats them as [re] does under [re.IGNORECASE]; it refuses the others. *)
Definition lower (c : ascii) : ascii :=
  let n := nat_of_ascii c in
  if (65 <=? n)%nat && (n <=? 90)%nat then ascii_of_nat (n + 32) else c.

Definition is_meta (c : ascii) : bool :=
  existsb (Ascii.eqb c) (list_ascii_of_string ".^$*+?{}[]\|()").

Fixpoint prefix_ic (p s : string) : bool :=
  match p, s with
  | "", _ => true
  | String x p', String y s' => Ascii.eqb (lower x) (lower y) && prefix_ic p' s'
  | String _ _, "" => false
  end.

Fixpoint literal_spans (p s : string) (pos skip : nat) : list (nat * nat) :=
  match s with
  | "" => if (skip =? 0)%nat && prefix_ic p "" then [(pos, pos)] else []
  | String _ s' =>
      match skip with
      | S skip' => literal_spans p s' (S pos) skip'
      | O =>
          if prefix_ic p s
          then (pos, pos + String.length p) ::
               literal_spans p s' (S pos) (String.length p - 1)
          else literal_spans p s' (S pos) 0
      end
  end.

Definition literal_finditer (p s : string) : exn + list (nat * nat) :=
  match p with
  | String "^" p' =>
      if existsb is_meta (list_ascii_of_string p')
      then inl (ReError "unsupported pattern")
      else inr (if prefix_ic p' s then [(0, String.length p')] else [])
  | _ =>
      if existsb is_meta (list_ascii_of_string p)
      then inl (ReError "unsupported pattern")
      else inr (literal_spans p s 0 0)
  end.

Definition nbgrader_cell (type tag text : string) : cell :=
  {| cell_type := type;
     metadata := {[ "nbgrader" := {[ "grade_id" := tag ]} ]};
     source := text |}.

Definition plain_cell (type text : string) : cell :=
  {| cell_type := type; metadata := ∅; source := text |}.

(** The document of the specification's examples. *)
Definition q1_notebook : notebook :=
  {| cells := [ nbgrader_cell "code" "q1" "def f(): pass";
                plain_cell "markdown" "# Q1" ] |}.

Definition two_cells : notebook :=
  {| cells := [ plain_cell "code" "a"; plain_cell "code" "b" ] |}.

Definition demo_cwd : node :=
  Dir [ ("a.ipynb", File);
        ("broken.ipynb", File);
        ("latin.ipynb", File);
        ("locked.ipynb", File);
        ("src", Dir [ ("one.ipynb", File);
                      ("notes.txt", File);
                      (".ipynb_checkpoints", Dir [ ("one-checkpoint.ipynb", File) ]);
                      ("deep", Dir [ ("two.ipynb", File) ]) ]);
        (".sync", Dir [ ("s.ipynb", File) ]);
        ("submitted",
         Dir [ ("harry", Dir [ ("hello", Dir [ ("hello.ipynb", File) ]);
                               ("oop", Dir [ ("hello_oop.ipynb", File) ]) ]);
               ("hermione", Dir [ ("hello", Dir [ ("hello.ipynb", File) ]) ]) ]) ].

Definition demo_read (fn : string) (ver : Z) : exn + notebook :=
  if String.eqb fn "broken.ipynb"
  then inl (NotJSONError "Notebook does not appear to be JSON: 'oops'")
  else if String.eqb fn "latin.ipynb"
  then inl (UnicodeDecodeError "'utf-8' codec can't decode byte 0xe9 in position 0: invalid continuation byte")
  else if String.eqb fn "locked.ipynb"
  then inl (OtherError "[Errno 13] Permission denied: 'locked.ipynb'")
  else if String.eqb fn "src/deep/two.ipynb" then inr two_cells
  else inr q1_notebook.

Definition demo_world : world :=
  {| lookup_path := resolve demo_cwd;
     nbformat_read := demo_read;
     re_finditer := literal_finditer;
     stdin_line := "";
     random_draws := [7; 3; 5];
     sample_takes_sets := true;
     set_order := map String.length |}.

(** The same under Python 3.11 or later. *)
Definition later_world : world :=
  {| lookup_path := resolve demo_cwd;
     nbformat_read := demo_read;
     re_finditer := literal_finditer;
     stdin_line := "";
     random_draws := [7; 3; 5];
     sample_takes_sets := false;
     set_order := map String.length |}.

(** The name [é.ipynb]: seven characters, eight bytes. *)
Definition accented_name : string :=
  String "195"%char (String "169"%char ".ipynb").

Definition no_args : args :=
  {| args_files := []; args_dir := None; args_submitted := None;
     args_random := None; args_grep := None; args_prompt := false;
     args_id := None; args_code := false; args_markdown := false;
     args_tags := false; args_nbformat := 4; args_plain := false |}.

(** ** The filter pipeline as the specification words it *)

(** "If a type restriction is configured, reject cells whose type does not
    equal it." *)
Definition type_ok (a : args) (c : cell) : bool :=
  match wanted_cell_type a with
  | Some t => bool_decide (cell_type c = t)
  | None => true
  end.

(** "If a required tag is configured, reject cells whose extracted tag
    does not equal it exactly."  A tag is configured when [--id] has a
    value that counts as true. *)
Definition tag_ok (a : args) (c : cell) : bool :=
  if Py.truthy_opt_str (args_id a)
  then bool_decide (cell_tag c = args_id a)
  else true.

(** "If a pattern is configured, reject cells whose source text does not
    contain a case-insensitive match for the pattern." *)
Definition has_match (w : world) (p text : string) : bool :=
  match re_finditer w p text with
  | inr (_ :: _) => true
  | _ => false
  end.

Definition pattern_ok (w : world) (pattern : pyval) (c : cell) : bool :=
  if truthy pattern then
    match pattern with
    | PStr p => has_match w p (source c)
    | _ => false
    end
  else true.

Definition passes (w : world) (a : args) (pattern : pyval) (c : cell) : bool :=
  type_ok a c && tag_ok a c && pattern_ok w pattern c.

(** The verdict of the first check that fails. *)
Definition first_failure (w : world) (a : args) (pattern : pyval) (c : cell)
  : verdict :=
  if negb (type_ok a c) then Rejected TypeFilter
  else if negb (tag_ok a c) then Rejected TagFilter
  else if negb (pattern_ok w pattern c) then Rejected PatternFilter
  else Retained.

(** A pattern the library can work with: when it counts as true, it is a
    string that compiles. *)
Definition usable (w : world) (pattern : pyval) : Prop :=
  truthy pattern = true ->
  exists p, pattern = PStr p /\
            forall text, exists spans, re_finditer w p text = inr spans.

(** The claim on untagged cells, a tag being required as soon as [--id]
    has a value: such a cell is rejected. *)
Definition untagged_rejected (w : world) (a : args) (pattern : pyval)
    (c : cell) : Prop :=
  metadata c !! "nbgrader" = None -> is_Some (args_id a) ->
  exists by_check, examine w a pattern c = ret (Rejected by_check).

(** Copies of the command line with one option changed. *)
Definition with_plain (b : bool) (a : args) : args :=
  {| args_files := args_files a; args_dir := args_dir a;
     args_submitted := args_submitted a; args_random := args_random a;
     args_grep := args_grep a; args_prompt := args_prompt a;
     args_id := args_id a; args_code := args_code a;
     args_markdown := args_markdown a; args_tags := args_tags a;
     args_nbformat := args_nbformat a; args_plain := b |}.

Definition with_tags (b : bool) (a : args) : args :=
  {| args_files := args_files a; args_dir := args_dir a;
     args_submitted := args_submitted a; args_random := args_random a;
     args_grep := args_grep a; args_prompt := args_prompt a;
     args_id := args_id a; args_code := args_code a;
     args_markdown := args_markdown a; args_tags := b;
     args_nbformat := args_nbformat a; args_plain := args_plain a |}.

Definition with_grep (g : option string) (a : args) : args :=
  {| args_files := args_files a; args_dir := args_dir a;
     args_submitted := args_submitted a; args_random := args_random a;
     args_grep := g; args_prompt := args_prompt a;
     args_id := args_id a; args_code := args_code a;
     args_markdown := args_markdown a; args_tags := args_tags a;
     args_nbformat := args_nbformat a; args_plain := args_plain a |}.

Definition with_prompt (b : bool) (a : args) : args :=
  {| args_files := args_files a; args_dir := args_dir a;
     args_submitted := args_submitted a; args_random := args_random a;
     args_grep := args_grep a; args_prompt := b;
     args_id := args_id a; args_code := args_code a;
     args_markdown := args_markdown a; args_tags := args_tags a;
     args_nbformat := args_nbformat a; args_plain := args_plain a |}.

Definition with_random (n : option Z) (a : args) : args :=
  {| args_files := args_files a; args_dir := args_dir a;
     args_submitted := args_submitted a; args_random := n;
     args_grep := args_grep a; args_prompt := args_prompt a;
     args_id := args_id a; args_code := args_code a;
     args_markdown := args_markdown a; args_tags := args_tags a;
     args_nbformat := args_nbformat a; args_plain := args_plain a |}.

Definition with_files (l : list string) (a : args) : args :=
  {| args_files := l; args_dir := args_dir a;
     args_submitted := args_submitted a; args_random := args_random a;
     args_grep := args_grep a; args_prompt := args_prompt a;
     args_id := args_id a; args_code := args_code a;
     args_markdown := args_markdown a; args_tags := args_tags a;
     args_nbformat := args_nbformat a; args_plain := args_plain a |}.

Definition with_dir (d : option (list string)) (a : args) : args :=
  {| args_files := args_files a; args_dir := d;
     args_submitted := args_submitted a; args_random := args_random a;
     args_grep := args_grep a; args_prompt := args_prompt a;
     args_id := args_id a; args_code := args_code a;
     args_markdown := args_markdown a; args_tags := args_tags a;
     args_nbformat := args_nbformat a; args_plain := args_plain a |}.

Definition with_submitted (d : option (list string)) (a : args) : args :=
  {| args_files := args_files a; args_dir := args_dir a;
     args_submitted := d; args_random := args_random a;
     args_grep := args_grep a; args_prompt := args_prompt a;
     args_id := args_id a; args_code := args_code a;
     args_markdown := args_markdown a; args_tags := args_tags a;
     args_nbformat := args_nbformat a; args_plain := args_plain a |}.

Definition with_code (b : bool) (a : args) : args :=
  {| args_files := args_files a; args_dir := args_dir a;
     args_submitted := args_submitted a; args_random := args_random a;
     args_grep := args_grep a; args_prompt := args_prompt a;
     args_id := args_id a; args_code := b;
     args_markdown := args_markdown a; args_tags := args_tags a;
     args_nbformat := args_nbformat a; args_plain := args_plain a |}.

Definition with_id (t : option string) (a : args) : args :=
  {| args_files := args_files a; args_dir := args_dir a;
     args_submitted := args_submitted a; args_random := args_random a;
     args_grep := args_grep a; args_prompt := args_prompt a;
     args_id := t; args_code := args_code a;
     args_markdown := args_markdown a; args_tags := args_tags a;
     args_nbformat := args_nbformat a; args_plain := args_plain a |}.

(** ** The file list as the specification words it *)

(** Every file below a directory, with the path of the directory that
    holds it. *)
Fixpoint files_below (dpath : string) (n : node) : list (string * string) :=
  match n with
  | File => []
  | Dir entries =>
      (fix below_entries (es : list (string * node)) :=
         match es with
         | [] => []
         | (name, child) :: es' =>
             (if is_dir child
              then files_below (Py.os_path_join dpath name) child
              else [(dpath, name)]) ++ below_entries es'
         end) entries
  end.

(** The notebooks below [root] that [keep] accepts, [keep] seeing the path
    of the directory and the name of the file. *)
Definition found (w : world) (root : string) (keep : string -> string -> bool)
  : list string :=
  match lookup_path w root with
  | Some n =>
      map (fun df => Py.os_path_join df.1 df.2)
        (List.filter (fun df => Py.endswith df.2 ".ipynb" && keep df.1 df.2)
           (files_below root n))
  | None => []
  end.

(** What the script looks at: the path of the directory, as [os.walk]
    builds it from the root that was typed. *)
Definition visible (d : string) : bool := negb (Py.contains d "/.").

Definition in_group (projects : list string) (d : string) : bool :=
  existsb (fun p => Py.contains d p) projects.

(** What [add_files_in_dir] asks of a directory, [projects] being its third
    argument. *)
Definition keeps (projects : option (list string)) (d : string) : bool :=
  visible d &&
  (negb (Py.truthy_opt_list projects) || in_group (default [] projects) d).

(** The lines that report the missing files. *)
Definition missing_report (w : world) (a : args) : list event :=
  map (fun fn => Print ("No such file: " +:+ fn))
    (List.filter (fun fn => negb (isfile w fn)) (args_files a)).

(** The prompt, when there is one. *)
Definition prompt_events (a : args) : list event :=
  if args_prompt a then [Prompt "pattern: "] else [].

Definition discovered (w : world) (a : args) : list string :=
  (if Py.truthy_opt_list (args_dir a)
   then flat_map (fun dn => found w dn (fun d _ => visible d))
          (default [] (args_dir a))
   else []) ++
  (if Py.truthy_opt_list (args_submitted a)
   then found w "submitted"
          (fun d _ => visible d && in_group (default [] (args_submitted a)) d)
   else []).

Definition selected (w : world) (a : args) : list string :=
  List.filter (isfile w) (args_files a) ++ discovered w a.

(** The set the script has gathered when it looks at its size. *)
Definition gathered (w : world) (a : args) : gset string :=
  let file_set := list_to_set (List.filter (isfile w) (args_files a)) ∪ ∅ in
  let file_set :=
    if Py.truthy_opt_list (args_dir a)
    then add_files_in_dir w file_set (default [] (args_dir a)) None
    else file_set in
  if Py.truthy_opt_list (args_submitted a)
  then add_files_in_dir w file_set ["submitted"] (args_submitted a)
  else file_set.

(** The numbers that code the order in which that set is iterated. *)
Definition file_order (w : world) (a : args) : list nat :=
  set_order w (insertions w a).

(** The value of the variable [pattern] when [main] reads it. *)
Definition typed_pattern (w : world) (a : args) : pyval :=
  if args_prompt a then PStr (stdin_line w) else PNone.

Definition file_list (w : world) (a : args) : list string :=
  Py.sorted (remove_dups (selected w a)).

(** The claim's reading: a directory is left out when one of the
    components of its path begins with a period, and a submitted notebook
    is kept when its own path contains one of the group names. *)
Definition hidden_segment (d : string) : bool :=
  existsb (fun c => Py.startswith c ".") (split_path d "").

Definition claimed_selected (w : world) (a : args) : list string :=
  List.filter (isfile w) (args_files a) ++
  (if Py.truthy_opt_list (args_dir a)
   then flat_map (fun dn => found w dn (fun d _ => negb (hidden_segment d)))
          (default [] (args_dir a))
   else []) ++
  (if Py.truthy_opt_list (args_submitted a)
   then found w "submitted"
          (fun d f => negb (hidden_segment d) &&
                      existsb (fun p => Py.contains (Py.os_path_join d f) p)
                        (default [] (args_submitted a)))
   else []).

Definition claimed_file_list (w : world) (a : args) : list string :=
  Py.sorted (remove_dups (claimed_selected w a)).

Definition file_list_claim (w : world) (a : args) : Prop :=
  forall tr l, build_file_list w a = (tr, Ret l) -> l = claimed_file_list w a.

(** Strictly increasing: sorted and without duplicates. *)
Definition increasing (l : list string) : Prop :=
  StronglySorted (strict String.le) l.

(** ** The sampling claim *)


(** ** The plain rendering claim *)

(** The text begins with the sources, a blank line between one and the
    next. *)
Definition blank_line_separated (lst : list string) (out : string) : Prop :=
  Py.startswith out (String.concat (newline +:+ newline) lst) = true.

Definition has_esc (s : string) : bool := Py.contains s esc.

(** Texts printed one after the other, each with its newline. *)
Fixpoint lines (l : list string) : string :=
  match l with
  | [] => ""
  | s :: l' => s +:+ newline +:+ lines l'
  end.

(** The line that reports a notebook the reader refused. *)
Definition report (w : world) (a : args) (fn : string) : string :=
  match nbformat_read w fn (args_nbformat a) with
  | inl e => exn_str e +:+ " " +:+ fn
  | inr _ => ""
  end.

(** The reader returns a notebook or fails with one of the two exceptions
    the script catches. *)
Definition readable_or_skipped (w : world) (a : args) (fn : string) : Prop :=
  match nbformat_read w fn (args_nbformat a) with
  | inl e => caught e = true
  | inr _ => True
  end.

(** ** Command lines of the concrete runs *)

Definition tags_only : args := with_tags true no_args.
Definition code_only : args := with_code true no_args.
Definition plain_args : args := with_plain true no_args.
Definition submitted_hello : args := with_submitted (Some ["hello"]) no_args.
Definition two_notebooks : args :=
  with_files ["a.ipynb"; "src/one.ipynb"] no_args.
Definition mixed_search : args :=
  with_files ["a.ipynb"]
    (with_dir (Some ["src"]) (with_submitted (Some ["hello"]) no_args)).
Definition one_missing : args :=
  with_files ["a.ipynb"; "b.ipynb"; "src/one.ipynb"; "c.ipynb"] no_args.
Definition broken_notebooks : args :=
  with_files ["broken.ipynb"; "a.ipynb"; "latin.ipynb"] no_args.

(** ** Hidden directories *)

(** A name a directory entry can have: not empty, without a slash. *)
Definition valid_name (s : string) : bool :=
  negb (String.eqb s "") && negb (Py.contains s "/").

Fixpoint well_named (n : node) : bool :=
  match n with
  | File => true
  | Dir entries =>
      (fix all_entries (es : list (string * node)) :=
         match es with
         | [] => true
         | (name, child) :: es' =>
             valid_name name && well_named child && all_entries es'
         end) entries
  end.

(** Every file below a directory, with the names of the directories gone
    through from the root to reach it. *)
Fixpoint files_under (n : node) : list (list string * string) :=
  match n with
  | File => []
  | Dir entries =>
      (fix under_entries (es : list (string * node)) :=
         match es with
         | [] => []
         | (name, child) :: es' =>
             (if is_dir child
              then map (fun nf => (name :: nf.1, nf.2)) (files_under child)
              else [([], name)]) ++ under_entries es'
         end) entries
  end.

Definition path_from (top : string) (names : list string) : string :=
  foldl Py.os_path_join top names.

(** ** Escape sequences *)

(** The text without its escape sequences, each going from an escape
    character to the next [m]. *)
Fixpoint strip_escapes (in_escape : bool) (s : string) : string :=
  match s with
  | "" => ""
  | String c s' =>
      if in_escape then strip_escapes (negb (Ascii.eqb c "m")) s'
      else if Ascii.eqb c "027" then strip_escapes true s'
      else String c (strip_escapes false s')
  end.

(** Spans as [re.finditer] gives them: from left to right from [pos] on,
    not overlapping, within the text. *)
Fixpoint spans_ok (pos : nat) (spans : list (nat * nat)) (len : nat) : bool :=
  match spans with
  | [] => (pos <=? len)%nat
  | (b, e) :: spans' =>
      (pos <=? b)%nat && (b <=? e)%nat && spans_ok e spans' len
  end.

(** The lines of a highlighted file without their colours. *)
Definition uncoloured_lines (fn : string) (lst : list string) : list string :=
  fn :: Py.repeat_char "=" (Py.len fn) ::
  flat_map (fun source => [source; "---------"]) lst ++ [""].

(** * Properties *)

(** ** Strings *)

Lemma string_app_cons c s t : String c s +:+ t = String c (s +:+ t).
Proof. reflexivity. Qed.

Lemma string_app_assoc s1 s2 s3 : (s1 +:+ s2) +:+ s3 = s1 +:+ (s2 +:+ s3).
Proof.
  induction s1 as [|c s1 IH]; [done|]. by rewrite !string_app_cons, IH.
Qed.

(** ** The event writer *)

Lemma bind_ret_l {A B} (x : A) (f : A -> M B) : bind (ret x) f = f x.
Proof. unfold bind, ret. by destruct (f x). Qed.

Lemma bind_exit {A B} (c : Z) (f : A -> M B) : bind (exit c) f = exit c.
Proof. reflexivity. Qed.

Lemma bind_raise {A B} (e : exn) (f : A -> M B) : bind (raise e) f = raise e.
Proof. reflexivity. Qed.

Lemma bind_assoc {A B C} (m : M A) (f : A -> M B) (g : B -> M C) :
  bind (bind m f) g = bind m (fun x => bind (f x) g).
Proof.
  destruct m as [tr [x| |]]; simpl; try done.
  destruct (f x) as [tr1 [y| |]]; simpl; try done.
  destruct (g y) as [tr2 r]. by rewrite app_assoc.
Qed.

Lemma bind_emit {B} (e : event) (f : unit -> M B) :
  bind (emit e) f = (e :: (f tt).1, (f tt).2).
Proof. unfold bind, emit. by destruct (f tt). Qed.

Lemma bind_pure {A B} (tr : list event) (x : A) (f : A -> M B) :
  bind (tr, Ret x) f = (tr ++ (f x).1, (f x).2).
Proof. unfold bind. by destruct (f x). Qed.

Lemma bind_fst {A B} (m : M A) (f : A -> M B) :
  (bind m f).1 = match m.2 with Ret x => m.1 ++ (f x).1 | _ => m.1 end.
Proof. destruct m as [tr [x| |]]; simpl; try done. by destruct (f x). Qed.

Lemma bind_snd {A B} (m : M A) (f : A -> M B) :
  (bind m f).2 = match m.2 with
                 | Ret x => (f x).2
                 | Exit c => Exit c
                 | Raise e => Raise e
                 end.
Proof. destruct m as [tr [x| |]]; simpl; try done. by destruct (f x). Qed.

Section scan.
Context (w : world) (a : args) (pattern : pyval).

Lemma wanted_cell_type_truthy t :
  wanted_cell_type a = Some t -> Py.truthy_str t = true.
Proof.
  unfold wanted_cell_type.
  destruct (args_code a), (args_markdown a); intros [= <-]; reflexivity.
Qed.

Lemma type_check_spec c :
  Py.truthy_opt_str (wanted_cell_type a) &&
  negb (bool_decide (Some (cell_type c) = wanted_cell_type a))
  = negb (type_ok a c).
Proof.
  unfold type_ok.
  destruct (wanted_cell_type a) as [t|] eqn:E; [|done].
  simpl. rewrite (wanted_cell_type_truthy _ E). simpl. f_equal.
  apply bool_decide_ext. split; [by intros [= ->] | by intros ->].
Qed.

Lemma tag_check_spec c :
  Py.truthy_opt_str (args_id a) && negb (bool_decide (cell_tag c = args_id a))
  = negb (tag_ok a c).
Proof. unfold tag_ok. by destruct (Py.truthy_opt_str (args_id a)). Qed.

Lemma examine_first_failure c :
  usable w pattern ->
  examine w a pattern c = ret (first_failure w a pattern c).
Proof.
  intros Hu. unfold examine, first_failure.
  rewrite type_check_spec, tag_check_spec.
  destruct (type_ok a c); [|done]. destruct (tag_ok a c); [|done].
  unfold pattern_ok. simpl.
  destruct (truthy pattern) eqn:Ht; [|done].
  destruct (Hu Ht) as (p & -> & Hp). destruct (Hp (source c)) as [spans Hs].
  unfold re_search, has_match. rewrite Hs, bind_ret_l. by destruct spans.
Qed.

Lemma scan_cell_passes matches c :
  usable w pattern ->
  scan_cell w a pattern matches c =
  ret (if passes w a pattern c then matches ++ contribution a c else matches).
Proof.
  intros Hu. unfold scan_cell. rewrite (examine_first_failure _ Hu), bind_ret_l.
  unfold first_failure, passes.
  by destruct (type_ok a c), (tag_ok a c), (pattern_ok w pattern c).
Qed.

Lemma scan_loop_passes cs matches :
  usable w pattern ->
  for_each cs (scan_cell w a pattern) matches =
  ret (matches ++ flat_map (contribution a) (List.filter (passes w a pattern) cs)).
Proof.
  intros Hu. revert matches.
  induction cs as [|c cs IH]; intros matches; simpl.
  - by rewrite app_nil_r.
  - rewrite (scan_cell_passes _ _ Hu), bind_ret_l, IH.
    destruct (passes w a pattern c); simpl; [|done].
    by rewrite <- app_assoc.
Qed.

Lemma scan_cells_passes nb :
  usable w pattern ->
  scan_cells w a pattern nb =
  ret (flat_map (contribution a) (List.filter (passes w a pattern) (cells nb))).
Proof. intros Hu. unfold scan_cells. by rewrite scan_loop_passes. Qed.

(** The loop over the cells prints nothing and never exits. *)
Lemma examine_silent c : (examine w a pattern c).1 = [].
Proof.
  unfold examine.
  destruct (_ && _); [done|]. destruct (_ && _); [done|].
  destruct (truthy pattern); [|done].
  unfold re_search. destruct pattern; try done.
  destruct (re_finditer _ _ _); [done|].
  rewrite bind_ret_l. by destruct (head _).
Qed.

Lemma examine_no_exit c n : (examine w a pattern c).2 <> Exit n.
Proof.
  unfold examine.
  destruct (_ && _); [done|]. destruct (_ && _); [done|].
  destruct (truthy pattern); [|done].
  unfold re_search. destruct pattern; try done.
  destruct (re_finditer _ _ _); [done|].
  rewrite bind_ret_l. by destruct (head _).
Qed.

Lemma scan_loop_silent cs matches :
  (for_each cs (scan_cell w a pattern) matches).1 = [].
Proof.
  revert matches. induction cs as [|c cs IH]; intros matches; [done|].
  simpl. unfold scan_cell. rewrite !bind_fst, bind_snd, examine_silent.
  destruct (examine w a pattern c).2 as [v| |]; simpl; try done.
  destruct v; simpl; apply IH.
Qed.
Lemma scan_cells_silent nb : (scan_cells w a pattern nb).1 = [].
Proof. apply scan_loop_silent. Qed.

Lemma untagged_cell c : metadata c !! "nbgrader" = None -> cell_tag c = None.
Proof. unfold cell_tag. by intros ->. Qed.
End scan.

(** C2, amended: the cells are examined in document order, each by the
    type filter, then the tag filter, then the pattern filter, the first
    failed check rejecting the cell without the later ones being looked
    at; a cell without grading metadata has no tag and is rejected
    whenever a tag that is not the empty string is required; the pattern
    filter rejects exactly the cells in whose text the search finds no
    match; and the retained cells contribute in their document order. *)
Theorem cell_filter_pipeline (w : world) (a : args) (pattern : pyval)
    (nb : notebook) :
  (forall c, type_ok a c = false ->
     examine w a pattern c = ret (Rejected TypeFilter)) /\
  (forall c, type_ok a c = true -> tag_ok a c = false ->
     examine w a pattern c = ret (Rejected TagFilter)) /\
  (forall c, metadata c !! "nbgrader" = None ->
     cell_tag c = None /\
     (Py.truthy_opt_str (args_id a) = true ->
      tag_ok a c = false /\
      exists by_check, examine w a pattern c = ret (Rejected by_check))) /\
  (usable w pattern ->
   (forall c, examine w a pattern c = ret (first_failure w a pattern c)) /\
   (forall c p, pattern = PStr p -> truthy pattern = true ->
      type_ok a c = true -> tag_ok a c = true ->
      (examine w a pattern c = ret (Rejected PatternFilter) <->
       re_finditer w p (source c) = inr []) /\
      (examine w a pattern c = ret Retained <->
       exists m spans, re_finditer w p (source c) = inr (m :: spans))) /\
   scan_cells w a pattern nb =
   ret (flat_map (contribution a)
          (List.filter (passes w a pattern) (cells nb)))).
Proof.
  assert (Htype : forall c, type_ok a c = false ->
            examine w a pattern c = ret (Rejected TypeFilter)).
  { intros c Hc. unfold examine. by rewrite type_check_spec, Hc. }
  assert (Htag : forall c, type_ok a c = true -> tag_ok a c = false ->
            examine w a pattern c = ret (Rejected TagFilter)).
  { intros c Hc Ht. unfold examine.
    by rewrite type_check_spec, tag_check_spec, Hc, Ht. }
  split_and!; [done | done | |].
  - intros c Hm. split; [by apply untagged_cell|]. intros Hid.
    assert (Ht : tag_ok a c = false).
    { unfold tag_ok. rewrite Hid, (untagged_cell c Hm).
      apply bool_decide_eq_false. intros E. by rewrite <- E in Hid. }
    split; [done|].
    destruct (type_ok a c) eqn:Hc; eauto.
  - intros Hu. split_and!.
    + intros c. by apply examine_first_failure.
    + intros c p -> Ht Hc Hg. rewrite (examine_first_failure _ _ _ _ Hu).
      unfold first_failure, pattern_ok, has_match. rewrite Hc, Hg, Ht. simpl.
      destruct (Hu Ht) as (p' & [= <-] & Hp).
      destruct (Hp (source c)) as [[|m spans] ->]; simpl.
      * split; [done|]. split; [done | by intros (? & ? & ?)].
      * split; [by split | split; eauto].
    + by apply scan_cells_passes.
Qed.

Lemma literal_usable (w : world) (p : string) :
  re_finditer w = literal_finditer ->
  literal_finditer p "" = inr (literal_spans p "" 0 0) ->
  usable w (PStr p).
Proof.
  intros Hw H _. exists p. split; [done|]. intros text. rewrite Hw.
  unfold literal_finditer in *.
  destruct p as [|c p]; [eauto|].
  destruct (Ascii.eqb_spec c "^") as [->|Hc].
  - simpl in H. destruct (existsb is_meta (list_ascii_of_string p)); [done|eauto].
  - assert (forall A (x y : A), match c with "^"%char => x | _ => y end = y) as E.
    { intros A x y. destruct c as [[] [] [] [] [] [] [] []]; try done. }
    rewrite E in *. destruct (existsb is_meta _); [done | eauto].
Qed.

Lemma demo_usable : usable demo_world (PStr "^#").
Proof. by apply literal_usable. Defined.

Lemma cell_filter_pipeline_witness :
  usable demo_world (PStr "^#") /\
  scan_cells demo_world no_args (PStr "^#") q1_notebook = ret ["# Q1"].
Proof.
  split; [exact demo_usable|].
  exact (proj2 (proj2 (proj2 (proj2 (proj2
    (cell_filter_pipeline demo_world no_args (PStr "^#") q1_notebook))) demo_usable))).
Defined.

(** C2 as stated fails for the empty tag: [--id] with the empty string
    counts as no [--id], and an untagged cell is retained. *)
Lemma untagged_rejected_counterexample :
  scan_cells demo_world (with_id (Some "") no_args) PNone q1_notebook =
  ret ["def f(): pass"; "# Q1"] /\
  ~ untagged_rejected demo_world (with_id (Some "") no_args) PNone
      (plain_cell "markdown" "# Q1").
Proof.
  split; [reflexivity|]. intros H.
  destruct (H eq_refl (mk_is_Some _ _ eq_refl)) as [by_check Hb].
  vm_compute in Hb. discriminate Hb.
Qed.

(** The pattern is looked at only for a cell that passed the first two
    checks: a pattern that does not compile goes unnoticed as long as no
    cell gets that far. *)
Example bad_pattern_unnoticed :
  scan_cells demo_world code_only (PStr "(")
    {| cells := [plain_cell "markdown" "# Q1"] |} = ret [] /\
  scan_cells demo_world code_only (PStr "(") q1_notebook =
  raise (ReError "unsupported pattern").
Proof. split; reflexivity. Qed.

(** The search finds the pattern anywhere in the text, whatever the
    case. *)
Example search_ignores_case :
  scan_cells demo_world no_args (PStr "EF F") q1_notebook =
  ret ["def f(): pass"].
Proof. reflexivity. Qed.

Example tag_filter_q1 :
  scan_cells demo_world (with_id (Some "q1") no_args) PNone q1_notebook =
  ret ["def f(): pass"] /\
  scan_cells demo_world (with_id (Some "q2") no_args) PNone q1_notebook =
  ret [].
Proof. split; reflexivity. Qed.

(** Highlighted rendering wraps each match in the second colour. *)
Example colorized_match :
  colorized demo_world no_args (PStr "q") "# Q1, q2" =
  ret ("# " +:+ highlight "Q" 4 +:+ "1, " +:+ highlight "q" 4 +:+ "2").
Proof. reflexivity. Qed.

(** The specification's example document, filtered by type and by
    pattern. *)
Example q1_code_cells :
  scan_cells demo_world code_only PNone q1_notebook = ret ["def f(): pass"].
Proof. reflexivity. Qed.

Example q1_headers :
  scan_cells demo_world no_args (PStr "^#") q1_notebook = ret ["# Q1"].
Proof. reflexivity. Qed.

(** C5: in tags-only mode a retained cell contributes its tag when it has
    one and nothing when it has none, also when no tag was required; with
    [--tags] alone, the document made of a code cell tagged q1 and an
    untagged markdown cell yields the list [q1]. *)
Theorem tags_only_skips_untagged (w : world) (a : args) (pattern : pyval)
    (nb : notebook) :
  args_tags a = true ->
  (forall c, contribution a c =
             match cell_tag c with Some tag => [tag] | None => [] end) /\
  (forall c matches, cell_tag c = None ->
     (scan_cell w a pattern matches c).2 = Ret matches \/
     exists e, (scan_cell w a pattern matches c).2 = Raise e) /\
  (usable w pattern ->
   scan_cells w a pattern nb =
   ret (omap cell_tag (List.filter (passes w a pattern) (cells nb)))) /\
  scan_cells w tags_only PNone q1_notebook = ret ["q1"].
Proof.
  intros Ht.
  assert (Hc : forall c, contribution a c =
             match cell_tag c with Some tag => [tag] | None => [] end).
  { intros c. unfold contribution. by rewrite Ht. }
  split_and!; [done | | | reflexivity].
  - intros c matches Hn. unfold scan_cell. rewrite bind_snd.
    destruct (examine w a pattern c).2 as [[]| |] eqn:E; simpl; eauto.
    + left. by rewrite Hc, Hn, app_nil_r.
    + by apply examine_no_exit in E.
  - intros Hu. rewrite (scan_cells_passes _ _ _ _ Hu). f_equal.
    induction (List.filter _ _) as [|c cs IH]; [done|].
    simpl. rewrite IH, Hc. by destruct (cell_tag c).
Qed.

Lemma tags_only_skips_untagged_witness :
  args_tags tags_only = true /\
  scan_cells demo_world tags_only PNone q1_notebook = ret ["q1"].
Proof.
  split; [reflexivity|].
  exact (proj2 (proj2 (proj2
    (tags_only_skips_untagged demo_world tags_only PNone q1_notebook eq_refl)))).
Defined.

(** C9: a file whose list of matches is empty leaves the output as it
    was, in tags-only mode as in content mode, plain or highlighted: no
    header, no underline, no blank line. *)
Theorem no_match_no_output (w : world) (a : args) (pattern : pyval)
    (fn : string) (nb : notebook) :
  nbformat_read w fn (args_nbformat a) = inr nb ->
  (scan_cells w a pattern nb).2 = Ret [] ->
  scan_file w a pattern fn = ([Read fn (args_nbformat a)], Ret tt) /\
  stdout (scan_file w a pattern fn).1 = "" /\
  forall rest,
    stdout (scan_files w a pattern (fn :: rest)).1 =
    stdout (scan_files w a pattern rest).1.
Proof.
  intros Hr Hs.
  assert (E : scan_file w a pattern fn = ([Read fn (args_nbformat a)], Ret tt)).
  { unfold scan_file. rewrite Hr, bind_emit.
    pose proof (scan_cells_silent w a pattern nb) as Hq.
    destruct (scan_cells w a pattern nb) as [tr r]. simpl in *. by subst. }
  split_and!; [done | by rewrite E |].
  intros rest. unfold scan_files at 1. simpl. rewrite E.
  fold (scan_files w a pattern rest). by rewrite bind_pure.
Qed.

Lemma no_match_no_output_witness :
  nbformat_read demo_world "a.ipynb" 4 = inr q1_notebook /\
  (scan_cells demo_world no_args (PStr "zebra") q1_notebook).2 = Ret [] /\
  stdout (scan_file demo_world no_args (PStr "zebra") "a.ipynb").1 = "".
Proof.
  split; [reflexivity|]. split; [reflexivity|].
  exact (proj1 (proj2
    (no_match_no_output demo_world no_args (PStr "zebra") "a.ipynb" q1_notebook
       eq_refl eq_refl))).
Defined.

Lemma for_each_ext {A S} (l : list A) (f g : S -> A -> M S) (s : S) :
  (forall s x, f s x = g s x) -> for_each l f s = for_each l g s.
Proof.
  intros H. revert s. induction l as [|x l IH]; intros s; [done|].
  simpl. rewrite H. destruct (g s x) as [tr [s'| |]]; simpl; try done.
  by rewrite IH.
Qed.

Lemma bind_ext {A B} (m : M A) (f g : A -> M B) :
  (forall x, f x = g x) -> bind m f = bind m g.
Proof. intros H. destruct m as [tr [x| |]]; simpl; try done. by rewrite H. Qed.

Section falsy.
Context (w : world) (a : args) (p : pyval) (Hp : truthy p = false).

Lemma examine_falsy c :
  examine w a p c =
  ret (if negb (type_ok a c) then Rejected TypeFilter
       else if negb (tag_ok a c) then Rejected TagFilter
       else Retained).
Proof.
  unfold examine. rewrite type_check_spec, tag_check_spec, Hp.
  by destruct (type_ok a c), (tag_ok a c).
Qed.

Lemma colorized_falsy text : colorized w a p text = ret text.
Proof. unfold colorized. rewrite Hp. by rewrite orb_true_r. Qed.

Lemma usable_falsy : usable w p.
Proof. intros Ht. by rewrite Hp in Ht. Qed.
End falsy.

Lemma scan_files_falsy (w : world) (a : args) (p q : pyval) files :
  truthy p = false -> truthy q = false ->
  scan_files w a p files = scan_files w a q files.
Proof.
  intros Hp Hq. unfold scan_files. apply for_each_ext. intros _ fn.
  unfold scan_file. apply bind_ext. intros _.
  destruct (nbformat_read w fn (args_nbformat a)) as [e|nb]; [done|].
  assert (scan_cells w a p nb = scan_cells w a q nb) as ->.
  { unfold scan_cells. apply for_each_ext. intros ms c. unfold scan_cell.
    by rewrite !examine_falsy. }
  apply bind_ext. intros matches.
  destruct (0 <? length matches)%nat; [|done].
  destruct (args_tags a); [done|].
  unfold print_hits. apply bind_ext. intros _. f_equal.
  apply for_each_ext. intros _ text. by rewrite !colorized_falsy.
Qed.

(** C10: an empty pattern is no pattern.  Under a pattern that counts as
    false the pattern filter rejects no cell and the printed sources are
    not rewritten; [--grep] with the empty string runs as without
    [--grep], and [--prompt] answered by an empty line runs, after the
    prompt, as without [--prompt]. *)
Theorem empty_pattern_is_no_pattern (w : world) (a : args) :
  (forall pattern, truthy pattern = false ->
     (forall c, pattern_ok w pattern c = true /\
                examine w a pattern c <> ret (Rejected PatternFilter) /\
                examine w a pattern c = ret (first_failure w a pattern c)) /\
     (forall text, colorized w a pattern text = ret text)) /\
  (args_prompt a = false -> args_grep a = Some "" ->
     truthy (search_pattern a PNone) = false /\
     main w a = main w (with_grep None a)) /\
  (args_prompt a = true -> args_grep a = None -> stdin_line w = "" ->
     truthy (search_pattern a (PStr (stdin_line w))) = false /\
     main w a =
     (emit (Prompt "pattern: ") ;;; main w (with_prompt false a))).
Proof.
  split_and!.
  - intros pattern Hp. split; [|by apply colorized_falsy].
    intros c.
    assert (Hok : pattern_ok w pattern c = true).
    { unfold pattern_ok. by rewrite Hp. }
    rewrite (examine_first_failure _ _ _ _ (usable_falsy w pattern Hp)).
    split_and!; [done | | done].
    unfold first_failure. rewrite Hok.
    by destruct (type_ok a c), (tag_ok a c).
  - intros Hpr Hg. unfold main, search_pattern.
    cbn [with_grep args_prompt args_grep]. rewrite Hpr, Hg.
    split; [reflexivity|]. rewrite !bind_ret_l. reflexivity.
  - intros Hpr Hg Hin. unfold main, search_pattern, input.
    cbn [with_prompt args_prompt args_grep]. rewrite Hpr, Hg, Hin.
    split; [reflexivity|].
    rewrite bind_assoc. apply bind_ext. intros _.
    rewrite !bind_ret_l.
    change (build_file_list w (with_prompt false a)) with (build_file_list w a).
    apply bind_ext. intros lst.
    by apply (scan_files_falsy w a).
Qed.

Lemma empty_pattern_is_no_pattern_witness :
  args_prompt (with_grep (Some "") two_notebooks) = false /\
  args_grep (with_grep (Some "") two_notebooks) = Some "" /\
  main demo_world (with_grep (Some "") two_notebooks) =
  main demo_world two_notebooks.
Proof.
  split; [reflexivity|]. split; [reflexivity|].
  exact (proj2 (proj1 (proj2
    (empty_pattern_is_no_pattern demo_world (with_grep (Some "") two_notebooks)))
    eq_refl eq_refl)).
Defined.

(** ** The walk and the files below a directory *)

Lemma node_rect_entries (P : node -> Prop) :
  P File ->
  (forall es, Forall (fun e => P e.2) es -> P (Dir es)) ->
  forall n, P n.
Proof.
  intros HF HD. fix IH 1. intros [|es]; [exact HF|]. apply HD.
  induction es as [|[name child] es IHes]; constructor; [apply IH | exact IHes].
Qed.

Lemma walk_node_dir top es :
  walk_node top (Dir es) =
  (top, subdir_names es, file_names es) ::
  flat_map (fun e => walk_node (Py.os_path_join top e.1) e.2) es.
Proof.
  simpl. f_equal. induction es as [|[name child] es IH]; [done|].
  simpl. by rewrite IH.
Qed.

Lemma files_below_dir top es :
  files_below top (Dir es) =
  flat_map (fun e => if is_dir e.2
                     then files_below (Py.os_path_join top e.1) e.2
                     else [(top, e.1)]) es.
Proof.
  simpl. induction es as [|[name child] es IH]; [done|].
  simpl. by rewrite IH.
Qed.

Lemma in_file_names f es :
  In f (file_names es) <-> exists child, In (f, child) es /\ is_dir child = false.
Proof.
  unfold file_names. rewrite in_map_iff. split.
  - intros ([name child] & <- & Hin). apply filter_In in Hin as [Hin Hd].
    exists child. simpl in *. split; [done|]. by destruct (is_dir child).
  - intros (child & Hin & Hd). exists (f, child). split; [done|].
    apply filter_In. split; [done|]. simpl. by rewrite Hd.
Qed.

Lemma walk_files n : forall top path f,
  (exists ds fs, In (path, ds, fs) (walk_node top n) /\ In f fs) <->
  In (path, f) (files_below top n).
Proof.
  induction n as [|es IH] using node_rect_entries; intros top path f.
  - simpl. split; [by intros (? & ? & [] & _) | done].
  - rewrite walk_node_dir, files_below_dir, in_flat_map. split.
    + intros (ds & fs & [[= <- <- <-] | Hin] & Hf).
      * apply in_file_names in Hf as (child & Hin & Hd).
        exists (f, child). split; [done|]. simpl. rewrite Hd. by left.
      * apply in_flat_map in Hin as ([name child] & Hin & Hw).
        exists (name, child). split; [done|]. simpl in *.
        rewrite Forall_forall in IH.
        destruct child as [|es']; [done|]. simpl.
        apply (IH (name, Dir es')); [by apply list_elem_of_In|]. eauto.
    + intros ([name child] & Hin & Hb). simpl in Hb.
      destruct (is_dir child) eqn:Hd.
      * rewrite Forall_forall in IH.
        apply (IH (name, child)) in Hb as (ds & fs & Hw & Hf);
          [|by apply list_elem_of_In].
        exists ds, fs. split; [|done]. right. apply in_flat_map.
        by exists (name, child).
      * destruct Hb as [[= <- <-]|[]].
        exists (subdir_names es), (file_names es). split; [by left|].
        apply in_file_names. eauto.
Qed.

(** ** Sets built by loops *)

Lemma elem_of_foldl_add {B} (F : gset string -> B -> gset string)
    (Q : B -> string -> Prop) (l : list B) (S : gset string) (x : string) :
  (forall S y x, x ∈ F S y <-> x ∈ S \/ Q y x) ->
  x ∈ foldl F S l <-> x ∈ S \/ exists y, In y l /\ Q y x.
Proof.
  intros HF. revert S. induction l as [|y l IH]; intros S; simpl.
  - split; [by left | by intros [|(? & [] & _)]].
  - rewrite IH, HF. split.
    + intros [[|]|(z & ? & ?)]; eauto.
    + intros [|(z & [<-|] & ?)]; eauto.
Qed.

Section selection.
Context (w : world).

Lemma elem_of_found root keep x :
  In x (found w root keep) <->
  exists n d f, lookup_path w root = Some n /\ In (d, f) (files_below root n) /\
                Py.endswith f ".ipynb" = true /\ keep d f = true /\
                x = Py.os_path_join d f.
Proof.
  unfold found. destruct (lookup_path w root) as [n|].
  - rewrite in_map_iff. split.
    + intros ([d f] & <- & Hin). apply filter_In in Hin as [Hin Hk].
      apply andb_true_iff in Hk as [He Hk]. exists n, d, f. eauto 10.
    + intros (n' & d & f & [= <-] & Hin & He & Hk & ->).
      exists (d, f). split; [done|]. apply filter_In. split; [done|].
      simpl. by rewrite He, Hk.
  - split; [done | by intros (? & ? & ? & ? & _)].
Qed.

Lemma elem_of_add_files_in_dir S dirnames projects x :
  x ∈ add_files_in_dir w S dirnames projects <->
  x ∈ S \/ exists dn, In dn dirnames /\
                      In x (found w dn (fun d _ => keeps projects d)).
Proof.
  unfold add_files_in_dir.
  rewrite (elem_of_foldl_add _
    (fun dn x => In x (found w dn (fun d _ => keeps projects d)))); [done|].
  clear. intros S dn x.
  rewrite (elem_of_foldl_add _
    (fun (item : string * list string * list string) x =>
       keeps projects item.1.1 = true /\
       exists fn, In fn item.2 /\ Py.endswith fn ".ipynb" = true /\
                  x = Py.os_path_join item.1.1 fn)).
  - apply or_iff_compat_l. rewrite elem_of_found. unfold os_walk.
    destruct (lookup_path w dn) as [n|].
    + split.
      * intros ([[path ds] fs] & Hin & Hk & fn & Hf & He & ->). simpl in *.
        exists n, path, fn. split_and!; try done.
        apply walk_files. eauto.
      * intros (n' & d & f & [= <-] & Hin & He & Hk & ->).
        apply walk_files in Hin as (ds & fs & Hin & Hf).
        exists (d, ds, fs). split; [done|]. simpl. eauto.
    + split; [by intros (? & [] & _) | by intros (? & ? & ? & ? & _)].
  - clear. intros S [[path ds] fnames] x. simpl. unfold keeps, visible.
    destruct (Py.contains path "/."); simpl.
    { split; [by left | by intros [|[]]]. }
    destruct (Py.truthy_opt_list projects &&
              negb (existsb (λ p, Py.contains path p) (default [] projects)))
      eqn:Hp.
    { split; [by left|]. intros [|[Hk _]]; [done|]. exfalso.
      unfold in_group in Hk.
      destruct (Py.truthy_opt_list projects); simpl in *; [|done].
      destruct (existsb _ _); done. }
    rewrite (elem_of_foldl_add _
      (fun fn x => Py.endswith fn ".ipynb" = true /\
                   x = Py.os_path_join path fn)).
    + apply or_iff_compat_l. split.
      * intros (fn & ? & ? & ?). split; [|eauto].
        unfold in_group. destruct (Py.truthy_opt_list projects); simpl in *; [|done].
        by destruct (existsb _ _).
      * intros [_ (fn & ? & ? & ?)]. eauto.
    + clear. intros S fn x. destruct (Py.endswith fn ".ipynb").
      * rewrite elem_of_union, elem_of_singleton.
        split; [intros [->|]; eauto | intros [|[_ ->]]; eauto].
      * split; [by left | by intros [|[]]].
Qed.
End selection.

Lemma found_ext (w : world) root k1 k2 :
  (forall d f, k1 d f = k2 d f) -> found w root k1 = found w root k2.
Proof.
  intros H. unfold found. destruct (lookup_path w root); [|done].
  f_equal. apply filter_ext. intros [d f]. simpl. by rewrite H.
Qed.

Section build.
Context (w : world) (a : args).

Lemma argv_loop l (S : gset string) (b : bool) :
  for_each l
    (fun '(files, all_found) fn =>
       if isfile w fn
       then ret ({[fn]} ∪ files, all_found)
       else print ("No such file: " +:+ fn) ;;; ret (files, false))
    (S, b) =
  (map (fun fn => Print ("No such file: " +:+ fn))
     (List.filter (fun fn => negb (isfile w fn)) l),
   Ret (list_to_set (List.filter (isfile w) l) ∪ S,
        b && forallb (isfile w) l)).
Proof.
  revert S b. induction l as [|fn l IH]; intros S b.
  - cbn. unfold ret. do 3 f_equal; [|by rewrite andb_true_r].
    apply set_eq. intros x. rewrite elem_of_union, elem_of_empty. tauto.
  - cbn [for_each List.filter forallb].
    destruct (isfile w fn) eqn:Hf; cbn [negb map andb].
    + rewrite bind_ret_l, IH. do 3 f_equal.
      apply set_eq. intros x.
      rewrite !elem_of_union, !elem_of_list_to_set, elem_of_cons,
        elem_of_singleton. tauto.
    + unfold print. rewrite bind_assoc, bind_emit, bind_ret_l, IH. cbn [fst snd].
      do 3 f_equal. by rewrite andb_false_r.
Qed.

Lemma filter_argv_files_spec (S : gset string) :
  filter_argv_files w a S =
  (missing_report w a,
   if forallb (isfile w) (args_files a)
   then Ret (list_to_set (List.filter (isfile w) (args_files a)) ∪ S)
   else Exit 1).
Proof.
  unfold filter_argv_files. rewrite argv_loop, bind_pure. simpl.
  unfold missing_report.
  destruct (forallb (isfile w) (args_files a)); simpl; by rewrite app_nil_r.
Qed.

Lemma all_found_no_report :
  forallb (isfile w) (args_files a) = true -> missing_report w a = [].
Proof.
  unfold missing_report. induction (args_files a) as [|fn l IH]; [done|].
  simpl. intros [Hf Hl]%andb_true_iff. rewrite Hf. simpl. by apply IH.
Qed.

Lemma gathered_selected : gathered w a = list_to_set (selected w a).
Proof.
  apply set_eq. intros x. unfold gathered, selected, discovered.
  rewrite elem_of_list_to_set, !elem_of_app.
  assert (Hd : forall S : gset string,
    x ∈ (if Py.truthy_opt_list (args_dir a)
         then add_files_in_dir w S (default [] (args_dir a)) None else S) <->
    x ∈ S \/
    x ∈ (if Py.truthy_opt_list (args_dir a)
         then flat_map (fun dn => found w dn (fun d _ => visible d))
                (default [] (args_dir a))
         else [])).
  { intros S. destruct (Py.truthy_opt_list (args_dir a)).
    - rewrite elem_of_add_files_in_dir. apply or_iff_compat_l.
      rewrite list_elem_of_In, in_flat_map.
      assert (E : forall dn, found w dn (fun d _ => keeps None d) =
                             found w dn (fun d _ => visible d)).
      { intros dn. apply found_ext. intros d _. unfold keeps. simpl.
        by rewrite andb_true_r. }
      by setoid_rewrite E.
    - rewrite elem_of_nil. tauto. }
  destruct (Py.truthy_opt_list (args_submitted a)) eqn:Hs.
  - rewrite elem_of_add_files_in_dir, Hd, elem_of_union, elem_of_list_to_set.
    rewrite elem_of_empty.
    assert (E : found w "submitted" (fun d _ => keeps (args_submitted a) d) =
                found w "submitted"
                  (fun d _ => visible d &&
                              in_group (default [] (args_submitted a)) d)).
    { apply found_ext. intros d _. unfold keeps. by rewrite Hs. }
    rewrite <- E, (list_elem_of_In (found _ _ _) x).
    split.
    + intros [[[|[]]|]|(dn & [<-|[]] & ?)]; eauto.
    + intros [|[|]]; [by left; left; left | by left; right |].
      right. exists "submitted". split; [by left | done].
  - rewrite Hd, elem_of_union, elem_of_list_to_set, elem_of_empty, elem_of_nil.
    tauto.
Qed.
End build.

Lemma sorted_elements (L : list string) :
  Py.sorted (elements (list_to_set L : gset string)) = Py.sorted (remove_dups L).
Proof.
  unfold Py.sorted.
  apply (StronglySorted_unique String.le);
    [apply StronglySorted_merge_sort; apply _ ..|].
  rewrite !merge_sort_Permutation.
  apply NoDup_Permutation; [apply NoDup_elements | apply NoDup_remove_dups |].
  intros x. by rewrite elem_of_elements, elem_of_list_to_set, elem_of_remove_dups.
Qed.

Lemma sorted_increasing (l : list string) :
  NoDup l -> increasing (Py.sorted l).
Proof.
  intros Hn. unfold increasing, Py.sorted.
  assert (Hs : StronglySorted String.le (merge_sort String.le l))
    by (apply StronglySorted_merge_sort; apply _).
  assert (Hd : NoDup (merge_sort String.le l))
    by (by rewrite merge_sort_Permutation).
  induction Hs as [|x l' Hs IH Hx]; [constructor|].
  apply NoDup_cons in Hd as [Hx' Hd]. constructor; [by apply IH|].
  rewrite Forall_forall in *. intros y Hy. split; [by apply Hx|].
  intros Hyx. assert (x = y) as ->; [|done].
  apply (anti_symm String.le); [by apply Hx | done].
Qed.

Section cases.
Context (w : world) (a : args).

Lemma build_file_list_gathered :
  build_file_list w a =
  if forallb (isfile w) (args_files a) then
    if (size (gathered w a) =? 0)%nat then ([Print "No files to scan"], Exit 1)
    else if Py.truthy_opt_int (args_random a) then
      l <- random_sample_of_set w (file_order w a) (gathered w a)
             (default 0%Z (args_random a)) ;;
      ret (Py.sorted l)
    else ret (Py.sorted (elements (gathered w a)))
  else (missing_report w a, Exit 1).
Proof.
  unfold build_file_list. rewrite filter_argv_files_spec.
  destruct (forallb (isfile w) (args_files a)) eqn:Hf; [|done].
  rewrite (all_found_no_report _ _ Hf).
  change (@nil event, Ret ?x) with (ret x). rewrite bind_ret_l.
  reflexivity.
Qed.

Lemma gathered_empty : size (gathered w a) = 0 <-> selected w a = [].
Proof.
  rewrite gathered_selected, size_empty_iff. split.
  - intros H. destruct (selected w a) as [|x l]; [done|].
    exfalso. apply (not_elem_of_empty (C:=gset string) x).
    rewrite <- H. apply elem_of_list_to_set. by left.
  - by intros ->.
Qed.

Lemma build_file_list_cases :
  build_file_list w a =
  if forallb (isfile w) (args_files a) then
    if decide (selected w a = []) then ([Print "No files to scan"], Exit 1)
    else if Py.truthy_opt_int (args_random a) then
      l <- random_sample_of_set w (file_order w a) (list_to_set (selected w a))
             (default 0%Z (args_random a)) ;;
      ret (Py.sorted l)
    else ret (file_list w a)
  else (missing_report w a, Exit 1).
Proof.
  rewrite build_file_list_gathered.
  destruct (forallb (isfile w) (args_files a)); [|done].
  destruct (decide (selected w a = [])) as [He|Hne].
  - apply gathered_empty in He. by rewrite He.
  - destruct (size (gathered w a) =? 0)%nat eqn:Hz.
    { apply Nat.eqb_eq, gathered_empty in Hz. done. }
    rewrite gathered_selected. unfold file_list. by rewrite sorted_elements.
Qed.

Lemma main_stops tr c :
  build_file_list w a = (tr, Exit c) ->
  main w a = (prompt_events a ++ tr, Exit c).
Proof.
  intros H. unfold main, prompt_events, input. rewrite H.
  destruct (args_prompt a).
  - by rewrite bind_assoc, bind_emit, bind_ret_l.
  - by rewrite bind_ret_l.
Qed.

Lemma main_raises tr e :
  build_file_list w a = (tr, Raise e) ->
  main w a = (prompt_events a ++ tr, Raise e).
Proof.
  intros H. unfold main, prompt_events, input. rewrite H.
  destruct (args_prompt a).
  - by rewrite bind_assoc, bind_emit, bind_ret_l.
  - by rewrite bind_ret_l.
Qed.

Lemma main_scans tr lst :
  build_file_list w a = (tr, Ret lst) ->
  main w a =
  (prompt_events a ++ tr ++
     (scan_files w a (search_pattern a (typed_pattern w a)) lst).1,
   (scan_files w a (search_pattern a (typed_pattern w a)) lst).2).
Proof.
  intros H. unfold main, prompt_events, input, typed_pattern. rewrite H.
  destruct (args_prompt a).
  - by rewrite bind_assoc, bind_emit, bind_ret_l, bind_pure.
  - by rewrite bind_ret_l, bind_pure.
Qed.
End cases.

(** ** Hidden directories *)

Lemma prefix_nil s : String.prefix "" s = true.
Proof. by destruct s. Qed.

Lemma prefix_cons c p d s :
  String.prefix (String c p) (String d s) = Ascii.eqb c d && String.prefix p s.
Proof.
  cbn [String.prefix]. destruct (ascii_dec c d) as [->|Hn].
  - by rewrite Ascii.eqb_refl.
  - apply Ascii.eqb_neq in Hn. by rewrite Hn.
Qed.

Lemma contains_cons c s p :
  Py.contains (String c s) p = String.prefix p (String c s) || Py.contains s p.
Proof. reflexivity. Qed.

Lemma endswith_cons c s p :
  Py.endswith (String c s) p = String.eqb (String c s) p || Py.endswith s p.
Proof. reflexivity. Qed.

Lemma eqb_one c s d :
  String.eqb (String c s) (String d "") = Ascii.eqb c d && String.eqb s "".
Proof. reflexivity. Qed.

Lemma contains_app_hidden s t :
  Py.contains (s +:+ t) "/." =
  Py.contains s "/." || (Py.endswith s "/" && Py.startswith t ".") ||
  Py.contains t "/.".
Proof.
  unfold Py.startswith. induction s as [|c s IH].
  - reflexivity.
  - rewrite string_app_cons, !contains_cons, endswith_cons, eqb_one, IH.
    rewrite !prefix_cons. rewrite (Ascii.eqb_sym c "/").
    destruct (Ascii.eqb "/" c); cbn [andb orb]; [|done].
    destruct s as [|c' s].
    + change ("" +:+ t) with t.
      change (String.prefix "." "") with false.
      change (Py.contains "" "/.") with false.
      change (Py.endswith "" "/") with false.
      change (String.eqb "" "") with true. cbn [andb orb].
      by destruct (String.prefix "." t).
    + rewrite string_app_cons, !prefix_cons, !prefix_nil.
      change (String.eqb (String c' s) "") with false. cbn [andb orb].
      destruct (Ascii.eqb "." c'); cbn [andb orb]; [done|].
      reflexivity.
Qed.

Lemma no_slash s :
  Py.contains s "/" = false ->
  Py.contains s "/." = false /\ Py.startswith s "/" = false.
Proof.
  unfold Py.startswith. induction s as [|c s IH]; [done|].
  rewrite !contains_cons, !prefix_cons, prefix_nil, andb_true_r.
  intros [Hc Hs]%orb_false_iff. rewrite Hc. cbn [andb orb].
  split; [by apply IH | done].
Qed.

Lemma join_hidden d name :
  d <> "" -> valid_name name = true ->
  Py.contains (Py.os_path_join d name) "/." =
  Py.contains d "/." || Py.startswith name ".".
Proof.
  intros Hd [Hn Hs]%andb_true_iff.
  apply negb_true_iff in Hs. destruct (no_slash _ Hs) as [Hh Hp].
  unfold Py.os_path_join. rewrite Hp.
  apply String.eqb_neq in Hd. rewrite Hd. cbn [orb].
  destruct (Py.endswith d "/") eqn:He.
  - rewrite contains_app_hidden, He, Hh. cbn [andb]. by rewrite orb_false_r.
  - rewrite contains_app_hidden, He. cbn [andb]. rewrite orb_false_r.
    f_equal. rewrite string_app_cons, contains_cons, prefix_cons.
    change ("" +:+ name) with name. rewrite Hh, Ascii.eqb_refl.
    cbn [andb]. by rewrite orb_false_r.
Qed.

Lemma join_nonempty d name : d <> "" -> Py.os_path_join d name <> "".
Proof.
  intros Hd. unfold Py.os_path_join.
  destruct (Py.startswith name "/") eqn:Hp.
  - destruct name; [done|]. done.
  - destruct d as [|c d]; [done|].
    destruct (String.eqb _ _ || _); by rewrite string_app_cons.
Qed.

Lemma path_from_hidden names : forall top,
  top <> "" -> forallb valid_name names = true ->
  Py.contains (path_from top names) "/." =
  Py.contains top "/." || existsb (fun nm => Py.startswith nm ".") names.
Proof.
  unfold path_from.
  induction names as [|nm names IH]; intros top Ht Hv.
  - cbn. by rewrite orb_false_r.
  - cbn [forallb] in Hv. apply andb_true_iff in Hv as [Hnm Hv].
    cbn [foldl existsb].
    rewrite IH; [|by apply join_nonempty | done].
    by rewrite join_hidden, orb_assoc.
Qed.

Lemma files_under_dir es :
  files_under (Dir es) =
  flat_map (fun e => if is_dir e.2
                     then map (fun nf => (e.1 :: nf.1, nf.2)) (files_under e.2)
                     else [([], e.1)]) es.
Proof.
  simpl. induction es as [|[name child] es IH]; [done|]. simpl. by rewrite IH.
Qed.

Lemma well_named_dir es :
  well_named (Dir es) =
  forallb (fun e => valid_name e.1 && well_named e.2) es.
Proof.
  simpl. induction es as [|[name child] es IH]; [done|]. simpl. by rewrite IH.
Qed.

Lemma files_below_under n : forall top,
  files_below top n =
  map (fun nf => (path_from top nf.1, nf.2)) (files_under n).
Proof.
  induction n as [|es IH] using node_rect_entries; intros top; [done|].
  rewrite files_below_dir, files_under_dir.
  induction es as [|[name child] es IHes]; [done|].
  apply Forall_cons in IH as [Hc IH]. cbn [snd] in Hc.
  cbn [flat_map fst snd]. rewrite map_app, IHes by done. f_equal.
  destruct (is_dir child); [|done].
  rewrite (Hc (Py.os_path_join top name)), map_map. done.
Qed.

Lemma files_under_valid n : forall names f,
  well_named n = true -> In (names, f) (files_under n) ->
  forallb valid_name names = true.
Proof.
  induction n as [|es IH] using node_rect_entries; intros names f Hw; [done|].
  rewrite files_under_dir, in_flat_map. rewrite well_named_dir in Hw.
  rewrite forallb_forall in Hw. rewrite Forall_forall in IH.
  intros ([name child] & Hin & Hf). cbn [fst snd] in Hf.
  specialize (Hw _ Hin). cbn [fst snd] in Hw.
  apply andb_true_iff in Hw as [Hv Hw].
  destruct (is_dir child).
  - apply in_map_iff in Hf as ([names' f'] & [= <- <-] & Hin').
    cbn [forallb]. rewrite Hv. cbn [andb].
    apply (IH (name, child)) with f'; [by apply list_elem_of_In | done | done].
  - by destruct Hf as [[= <- <-]|[]].
Qed.

(** Below a root that was typed, the directories the script leaves out
    are those reached through a directory whose name begins with a
    period, and all of them when the root itself contains [/.]. *)
Lemma visible_below_root (top : string) (n : node) (d f : string) :
  top <> "" -> well_named n = true ->
  In (d, f) (files_below top n) <->
  exists names, In (names, f) (files_under n) /\ d = path_from top names /\
                visible d =
                visible top &&
                forallb (fun nm => negb (Py.startswith nm ".")) names.
Proof.
  intros Ht Hw. rewrite files_below_under, in_map_iff. split.
  - intros ([names f'] & [= <- <-] & Hin). exists names.
    split; [done|]. split; [done|]. unfold visible.
    rewrite path_from_hidden; [|done|by apply (files_under_valid n names f')].
    rewrite negb_orb. f_equal. clear.
    induction names as [|nm names IH]; [done|].
    cbn [existsb forallb]. by rewrite negb_orb, IH.
  - intros (names & Hin & -> & _). by exists (names, f).
Qed.

Lemma or_iff_both (A A' B B' : Prop) :
  (A <-> A') -> (B <-> B') -> (A \/ B <-> A' \/ B').
Proof. tauto. Qed.

Lemma elem_of_selected (w : world) (a : args) (p : string) :
  p ∈ selected w a <->
  (p ∈ args_files a /\ isfile w p = true) \/
  (exists dn n d f,
     dn ∈ default [] (args_dir a) /\ lookup_path w dn = Some n /\
     (d, f) ∈ files_below dn n /\ Py.endswith f ".ipynb" = true /\
     Py.contains d "/." = false /\ p = Py.os_path_join d f) \/
  (exists n d f g,
     g ∈ default [] (args_submitted a) /\
     lookup_path w "submitted" = Some n /\
     (d, f) ∈ files_below "submitted" n /\ Py.endswith f ".ipynb" = true /\
     Py.contains d "/." = false /\ Py.contains d g = true /\
     p = Py.os_path_join d f).
Proof.
  unfold selected, discovered. rewrite !elem_of_app.
  apply or_iff_both; [|apply or_iff_both].
  - rewrite list_elem_of_In, filter_In, <- list_elem_of_In. done.
  - destruct (Py.truthy_opt_list (args_dir a)) eqn:Ht.
    + rewrite list_elem_of_In, in_flat_map. split.
      * intros (dn & Hdn & Hp).
        apply elem_of_found in Hp as (n & d & f & ? & ? & ? & Hv & ?).
        exists dn, n, d, f. rewrite !list_elem_of_In.
        unfold visible in Hv. apply negb_true_iff in Hv. done.
      * intros (dn & n & d & f & Hdn & ? & Hin & ? & Hv & ?).
        exists dn. rewrite list_elem_of_In in Hdn. rewrite list_elem_of_In in Hin. split; [done|].
        apply elem_of_found. exists n, d, f. unfold visible. by rewrite Hv.
    + split; [by intros ?%elem_of_nil|].
      intros (dn & ? & ? & ? & Hdn & _).
      destruct (args_dir a) as [[|]|]; simpl in *; try done;
        by apply elem_of_nil in Hdn.
  - destruct (Py.truthy_opt_list (args_submitted a)) eqn:Ht.
    + rewrite list_elem_of_In, elem_of_found. split.
      * intros (n & d & f & ? & ? & ? & Hk & ?).
        apply andb_true_iff in Hk as [Hv Hg].
        unfold visible in Hv. apply negb_true_iff in Hv.
        unfold in_group in Hg. apply existsb_exists in Hg as (g & Hg & ?).
        exists n, d, f, g. rewrite !list_elem_of_In. done.
      * intros (n & d & f & g & Hg & ? & Hin & ? & Hv & ? & ?).
        exists n, d, f. rewrite list_elem_of_In in Hg. rewrite list_elem_of_In in Hin.
        split_and!; try done. unfold visible. rewrite Hv. simpl.
        apply existsb_exists. eauto.
    + split; [by intros ?%elem_of_nil|].
      intros (? & ? & ? & g & Hg & _).
      destruct (args_submitted a) as [[|]|]; simpl in *; try done;
        by apply elem_of_nil in Hg.
Qed.

Lemma filter_all_found (w : world) (l : list string) :
  forallb (isfile w) l = true -> List.filter (isfile w) l = l.
Proof.
  induction l as [|fn l IH]; [done|]. simpl.
  intros [Hf Hl]%andb_true_iff. rewrite Hf. f_equal. by apply IH.
Qed.

(** C1, amended: when every explicit path exists, something was selected
    and no sample is asked for, the list returned is the sorted union
    without duplicates of the explicit paths, of the files named [*.ipynb]
    in the directories found below each [--dir] root whose path, as the
    walk builds it from the root that was typed, does not contain [/.],
    and of such files below [submitted] in the directories whose path
    contains one of the group names.  Below a root that does not contain
    [/.] itself, the directories whose path contains [/.] are those
    reached through a directory whose name begins with a period. *)
Theorem file_list_sorted_union (w : world) (a : args) :
  forallb (isfile w) (args_files a) = true ->
  selected w a <> [] ->
  Py.truthy_opt_int (args_random a) = false ->
  build_file_list w a = ret (file_list w a) /\
  increasing (file_list w a) /\
  (forall p, p ∈ file_list w a <->
     p ∈ args_files a \/
     (exists dn n d f,
        dn ∈ default [] (args_dir a) /\ lookup_path w dn = Some n /\
        (d, f) ∈ files_below dn n /\ Py.endswith f ".ipynb" = true /\
        Py.contains d "/." = false /\ p = Py.os_path_join d f) \/
     (exists n d f g,
        g ∈ default [] (args_submitted a) /\
        lookup_path w "submitted" = Some n /\
        (d, f) ∈ files_below "submitted" n /\ Py.endswith f ".ipynb" = true /\
        Py.contains d "/." = false /\ Py.contains d g = true /\
        p = Py.os_path_join d f)) /\
  (forall root n d f,
     root <> "" -> Py.contains root "/." = false -> well_named n = true ->
     (d, f) ∈ files_below root n ->
     exists names,
       (names, f) ∈ files_under n /\ d = path_from root names /\
       Py.contains d "/." = existsb (fun nm => Py.startswith nm ".") names).
Proof.
  intros Hf Hne Hr. split_and!; cycle 3.
  - intros root n d f Hroot Hvis Hwell Hin.
    rewrite list_elem_of_In, files_below_under, in_map_iff in Hin.
    destruct Hin as ([names f'] & [= <- <-] & Hin). exists names.
    split; [by apply list_elem_of_In|]. split; [done|].
    rewrite path_from_hidden;
      [by rewrite Hvis | done | by apply (files_under_valid n names f')].
  - rewrite build_file_list_cases, Hf, Hr.
    by destruct (decide (selected w a = [])).
  - apply sorted_increasing, NoDup_remove_dups.
  - intros p. unfold file_list, Py.sorted.
    rewrite merge_sort_Permutation, elem_of_remove_dups, elem_of_selected.
    apply or_iff_both; [|done]. split; [by intros [? _]|].
    intros Hp. split; [done|].
    rewrite forallb_forall in Hf. by apply Hf, list_elem_of_In.
Qed.

Lemma file_list_sorted_union_witness :
  build_file_list demo_world mixed_search =
  ret ["a.ipynb"; "src/deep/two.ipynb"; "src/one.ipynb";
       "submitted/harry/hello/hello.ipynb";
       "submitted/hermione/hello/hello.ipynb"].
Proof.
  refine (proj1 (file_list_sorted_union demo_world mixed_search _ _ _)).
  - reflexivity.
  - vm_compute. discriminate.
  - reflexivity.
Defined.

(** C1 as stated fails: with [--submitted hello] the notebook
    [submitted/harry/oop/hello_oop.ipynb] has the group name in its path
    and is not in the list, the directory that holds it not having the
    name in its own path. *)
Lemma file_list_claim_counterexample :
  ~ file_list_claim demo_world submitted_hello.
Proof.
  intros H.
  specialize (H [] ["submitted/harry/hello/hello.ipynb";
                    "submitted/hermione/hello/hello.ipynb"] eq_refl).
  vm_compute in H. discriminate H.
Qed.

(** The root is taken as it was typed: a hidden directory named as the
    root is searched. *)
Example hidden_root_is_searched :
  build_file_list demo_world (with_dir (Some [".sync"]) no_args) =
  ret [".sync/s.ipynb"].
Proof. reflexivity. Qed.

(** ** Traces *)

Lemma reads_app tr1 tr2 : reads (tr1 ++ tr2) = reads tr1 ++ reads tr2.
Proof.
  induction tr1 as [|[] tr1 IH]; simpl; [done | done | done |].
  by rewrite IH.
Qed.

Lemma reads_prompt a : reads (prompt_events a) = [].
Proof. unfold prompt_events. by destruct (args_prompt a). Qed.

Lemma reads_prints (f : string -> string) l : reads (map (fun x => Print (f x)) l) = [].
Proof. by induction l. Qed.

Lemma missing_some (w : world) (l : list string) :
  (exists fn, fn ∈ l /\ isfile w fn = false) <-> forallb (isfile w) l = false.
Proof.
  split.
  - intros (fn & Hin & Hf). apply not_true_is_false. intros Ha.
    rewrite forallb_forall in Ha.
    rewrite list_elem_of_In in Hin. by rewrite (Ha _ Hin) in Hf.
  - induction l as [|fn l IH]; [done|]. simpl.
    destruct (isfile w fn) eqn:Hf; simpl.
    + intros (fn' & ? & ?)%IH. exists fn'. split; [by right | done].
    + intros _. exists fn. split; [by left | done].
Qed.

(** C7: when an explicitly named file is missing, the program prints one
    line for every missing path, ends with status 1 and hands no notebook
    to the reader. *)
Theorem missing_file_stops_run (w : world) (a : args) :
  (exists fn, fn ∈ args_files a /\ isfile w fn = false) ->
  main w a = (prompt_events a ++ missing_report w a, Exit 1) /\
  (forall fn, fn ∈ args_files a -> isfile w fn = false ->
     Print ("No such file: " +:+ fn) ∈ (main w a).1) /\
  exit_status (main w a).2 = 1%Z /\
  reads (main w a).1 = [].
Proof.
  intros Hm. apply missing_some in Hm.
  assert (E : main w a = (prompt_events a ++ missing_report w a, Exit 1)).
  { apply main_stops. by rewrite build_file_list_cases, Hm. }
  rewrite E. split_and!; [done | | done |].
  - intros fn Hin Hf. simpl. apply elem_of_app. right.
    unfold missing_report. apply list_elem_of_In, in_map_iff. exists fn.
    split; [done|]. apply filter_In. rewrite <- list_elem_of_In.
    by rewrite Hf.
  - simpl. rewrite reads_app, reads_prompt. unfold missing_report.
    apply reads_prints.
Qed.

Lemma missing_file_stops_run_witness :
  (exists fn, fn ∈ args_files one_missing /\ isfile demo_world fn = false) /\
  main demo_world one_missing =
  ([Print "No such file: b.ipynb"; Print "No such file: c.ipynb"], Exit 1).
Proof.
  assert (H : exists fn, fn ∈ args_files one_missing /\
                         isfile demo_world fn = false).
  { exists "b.ipynb". split; [|reflexivity].
    apply list_elem_of_In. simpl. tauto. }
  split; [exact H|].
  exact (proj1 (missing_file_stops_run demo_world one_missing H)).
Defined.

(** C8: when no explicit path was given and nothing was discovered, the
    program prints "No files to scan" and ends with status 1 without
    handing a notebook to the reader, whatever sample was asked for. *)
Theorem empty_file_set_stops_run (w : world) (a : args) :
  args_files a ++ discovered w a = [] ->
  main w a = (prompt_events a ++ [Print "No files to scan"], Exit 1) /\
  exit_status (main w a).2 = 1%Z /\
  reads (main w a).1 = [] /\
  forall N, build_file_list w (with_random N a) =
            ([Print "No files to scan"], Exit 1).
Proof.
  intros [Hf Hd]%app_eq_nil.
  assert (Hb : forall N, build_file_list w (with_random N a) =
                         ([Print "No files to scan"], Exit 1)).
  { intros N. rewrite build_file_list_cases. cbn [with_random args_files].
    rewrite Hf. simpl forallb. cbv iota.
    assert (selected w (with_random N a) = []) as ->; [|done].
    unfold selected. cbn [with_random args_files]. rewrite Hf. simpl.
    exact Hd. }
  assert (E : main w a = (prompt_events a ++ [Print "No files to scan"], Exit 1)).
  { apply main_stops. exact (Hb (args_random a)). }
  rewrite E. split_and!; [done | done | | done].
  simpl. by rewrite reads_app, reads_prompt.
Qed.

Lemma empty_file_set_stops_run_witness :
  args_files (with_dir (Some ["nowhere"]) no_args) ++
  discovered demo_world (with_dir (Some ["nowhere"]) no_args) = [] /\
  main demo_world (with_dir (Some ["nowhere"]) no_args) =
  ([Print "No files to scan"], Exit 1).
Proof.
  split; [reflexivity|].
  exact (proj1 (empty_file_set_stops_run demo_world
                  (with_dir (Some ["nowhere"]) no_args) eq_refl)).
Defined.

(** ** The loop over the files *)

Section files.
Context (w : world) (a : args) (pattern : pyval).

Lemma scan_files_cons fn rest :
  scan_files w a pattern (fn :: rest) =
  (scan_file w a pattern fn ;;; scan_files w a pattern rest).
Proof. unfold scan_files. simpl. apply bind_ext. by intros []. Qed.

Lemma scan_file_skipped fn e :
  nbformat_read w fn (args_nbformat a) = inl e -> caught e = true ->
  scan_file w a pattern fn =
  ([Read fn (args_nbformat a); Print (exn_str e +:+ " " +:+ fn)], Ret tt).
Proof. intros Hr Hc. unfold scan_file. by rewrite Hr, Hc, bind_emit. Qed.

Lemma scan_file_raises fn e :
  nbformat_read w fn (args_nbformat a) = inl e -> caught e = false ->
  scan_file w a pattern fn = ([Read fn (args_nbformat a)], Raise e).
Proof. intros Hr Hc. unfold scan_file. by rewrite Hr, Hc, bind_emit. Qed.

Lemma for_each_returns {A} (l : list A) (body : unit -> A -> M unit) :
  (forall x, (body tt x).2 = Ret tt) -> (for_each l body tt).2 = Ret tt.
Proof.
  intros H. induction l as [|x l IH]; [done|].
  simpl. rewrite bind_snd, H. exact IH.
Qed.

Lemma colorized_returns text :
  usable w pattern -> exists s, colorized w a pattern text = ret s.
Proof.
  intros Hu. unfold colorized.
  destruct (args_plain a); simpl; [eauto|].
  destruct (truthy pattern) eqn:Ht; simpl; [|eauto].
  destruct (Hu Ht) as (p & -> & Hp). destruct (Hp text) as [spans Hs].
  unfold re_sub. rewrite Hs. eauto.
Qed.

Lemma print_hits_returns fn lst :
  usable w pattern -> (print_hits w a pattern fn lst).2 = Ret tt.
Proof.
  intros Hu. unfold print_hits.
  assert (Hloop : forall body_end : M unit, body_end.2 = Ret tt ->
            (for_each lst
               (fun _ source =>
                  text <- colorized w a pattern source ;;
                  print text ;;; body_end) tt ;;; print "").2 = Ret tt).
  { intros body_end He. rewrite bind_snd, for_each_returns; [done|].
    intros text. destruct (colorized_returns text Hu) as [s ->].
    by rewrite bind_ret_l, !bind_snd. }
  destruct (args_plain a); cbn [negb].
  - rewrite bind_ret_l. by apply Hloop.
  - rewrite bind_snd.
    assert (forall x y, (print x ;;; print y).2 = Ret tt) as -> by done.
    by apply Hloop.
Qed.

Lemma print_cell_ids_returns fn lst : (print_cell_ids fn lst).2 = Ret tt.
Proof.
  unfold print_cell_ids. rewrite !bind_snd. simpl.
  by rewrite for_each_returns.
Qed.

Lemma scan_file_returns fn :
  usable w pattern -> readable_or_skipped w a fn ->
  (scan_file w a pattern fn).2 = Ret tt.
Proof.
  intros Hu Hr. unfold scan_file, readable_or_skipped in *.
  rewrite bind_snd. simpl.
  destruct (nbformat_read w fn (args_nbformat a)) as [e|nb].
  - by rewrite Hr.
  - rewrite (scan_cells_passes _ _ _ _ Hu), bind_ret_l.
    destruct (0 <? _)%nat; [|done].
    destruct (args_tags a);
      [apply print_cell_ids_returns | by apply print_hits_returns].
Qed.

Lemma scan_files_return files :
  usable w pattern -> Forall (readable_or_skipped w a) files ->
  (scan_files w a pattern files).2 = Ret tt.
Proof.
  intros Hu Hf. induction Hf as [|fn files Hfn _ IH]; [done|].
  rewrite scan_files_cons, bind_snd.
  by rewrite (scan_file_returns fn Hu Hfn).
Qed.

Lemma scan_files_all_skipped files :
  Forall (fun fn => exists e, nbformat_read w fn (args_nbformat a) = inl e /\
                              caught e = true) files ->
  scan_files w a pattern files =
  (flat_map (fun fn => [Read fn (args_nbformat a); Print (report w a fn)])
     files,
   Ret tt).
Proof.
  intros Hf. induction Hf as [|fn files (e & Hr & Hc) _ IH]; [done|].
  rewrite scan_files_cons, (scan_file_skipped fn e Hr Hc), bind_pure, IH.
  cbn [flat_map app fst snd].
  assert (report w a fn = exn_str e +:+ " " +:+ fn) as ->; [|done].
  unfold report. by rewrite Hr.
Qed.
End files.

(** C6: a notebook the reader refuses with one of the two caught
    exceptions is reported on one line with its path and skipped, the scan
    going on with the next file; another exception ends the scan there;
    and the run ends with status 0 when some or all of the notebooks were
    skipped that way. *)
Theorem unreadable_notebook_is_skipped (w : world) (a : args)
    (pattern : pyval) :
  (forall e, caught e = true <->
             exists msg, e = NotJSONError msg \/ e = UnicodeDecodeError msg) /\
  (forall fn rest e,
     nbformat_read w fn (args_nbformat a) = inl e -> caught e = true ->
     scan_files w a pattern (fn :: rest) =
     (Read fn (args_nbformat a) :: Print (exn_str e +:+ " " +:+ fn) ::
        (scan_files w a pattern rest).1,
      (scan_files w a pattern rest).2)) /\
  (forall fn rest e,
     nbformat_read w fn (args_nbformat a) = inl e -> caught e = false ->
     scan_files w a pattern (fn :: rest) =
     ([Read fn (args_nbformat a)], Raise e)) /\
  (forall files,
     Forall (fun fn => exists e, nbformat_read w fn (args_nbformat a) = inl e /\
                                 caught e = true) files ->
     scan_files w a pattern files =
     (flat_map (fun fn => [Read fn (args_nbformat a); Print (report w a fn)])
        files,
      Ret tt)) /\
  (forall tr lst,
     build_file_list w a = (tr, Ret lst) ->
     usable w (search_pattern a (typed_pattern w a)) ->
     Forall (readable_or_skipped w a) lst ->
     (main w a).2 = Ret tt /\ exit_status (main w a).2 = 0%Z).
Proof.
  split_and!.
  - intros e. split.
    + destruct e as [m|m|m|m|m|m]; try done; intros _; exists m; eauto.
    + by intros (m & [-> | ->]).
  - intros fn rest e Hr Hc.
    by rewrite scan_files_cons, (scan_file_skipped _ _ _ fn e Hr Hc), bind_pure.
  - intros fn rest e Hr Hc.
    by rewrite scan_files_cons, (scan_file_raises _ _ _ fn e Hr Hc).
  - apply scan_files_all_skipped.
  - intros tr lst Hb Hu Hf. rewrite (main_scans _ _ _ _ Hb). simpl.
    by rewrite (scan_files_return _ _ _ lst Hu Hf).
Qed.

Lemma unreadable_notebook_is_skipped_witness :
  main demo_world broken_notebooks =
  ([Read "a.ipynb" 4;
    Print (highlight "a.ipynb" 1); Print (highlight "=======" 1);
    Print "def f(): pass"; Print (highlight "---------" 1);
    Print "# Q1"; Print (highlight "---------" 1); Print "";
    Read "broken.ipynb" 4;
    Print "Notebook does not appear to be JSON: 'oops' broken.ipynb";
    Read "latin.ipynb" 4;
    Print "'utf-8' codec can't decode byte 0xe9 in position 0: invalid continuation byte latin.ipynb"],
   Ret tt) /\
  exit_status (main demo_world broken_notebooks).2 = 0%Z.
Proof.
  split; [reflexivity|].
  refine (proj2 (proj2 (proj2 (proj2 (proj2
    (unreadable_notebook_is_skipped demo_world broken_notebooks PNone))))
    [] ["a.ipynb"; "broken.ipynb"; "latin.ipynb"] eq_refl _ _)).
  - intros Ht. discriminate Ht.
  - repeat constructor.
Defined.


(** Another exception ends the run where it is raised: the notebooks after
    it are not read. *)
Example other_exception_propagates :
  main demo_world (with_files ["a.ipynb"; "locked.ipynb"; "src/one.ipynb"]
                     (with_tags true no_args)) =
  ([Read "a.ipynb" 4; Print "a.ipynb"; Print "   q1"; Print "";
    Read "locked.ipynb" 4],
   Raise (OtherError "[Errno 13] Permission denied: 'locked.ipynb'")).
Proof. reflexivity. Qed.

(** ** Plain rendering *)

Lemma stdout_app tr1 tr2 : stdout (tr1 ++ tr2) = stdout tr1 +:+ stdout tr2.
Proof.
  induction tr1 as [|e tr1 IH]; [done|].
  cbn [app stdout]. by rewrite IH, string_app_assoc.
Qed.

Lemma stdout_prints lst : stdout (map Print lst) = lines lst.
Proof.
  induction lst as [|s lst IH]; [done|].
  cbn [map stdout shown lines]. by rewrite IH, string_app_assoc.
Qed.

Lemma has_esc_app s1 s2 : has_esc (s1 +:+ s2) = has_esc s1 || has_esc s2.
Proof.
  unfold has_esc, esc. induction s1 as [|c s1 IH].
  - change ("" +:+ s2) with s2. by destruct s2.
  - rewrite string_app_cons. cbn [Py.contains]. rewrite IH.
    assert (forall s, String.prefix (String "027" "") (String c s) =
                      Ascii.eqb "027" c) as E.
    { intros s. cbn [String.prefix]. destruct (ascii_dec "027" c) as [->|Hn].
      - rewrite Ascii.eqb_refl. by destruct s.
      - apply Ascii.eqb_neq in Hn. by rewrite Hn. }
    rewrite !E. by rewrite orb_assoc.
Qed.

Lemma has_esc_lines lst :
  Forall (fun s => has_esc s = false) lst -> has_esc (lines lst) = false.
Proof.
  induction 1 as [|s lst Hs _ IH]; [done|].
  cbn [lines]. by rewrite !has_esc_app, Hs, IH.
Qed.

Section plain.
Context (w : world) (a : args) (pattern : pyval).
Context (Hplain : args_plain a = true).

Lemma print_hits_plain fn lst :
  print_hits w a pattern fn lst = (map Print lst ++ [Print ""], Ret tt).
Proof.
  unfold print_hits. rewrite Hplain. cbn [negb]. rewrite bind_ret_l.
  assert (E : for_each lst
                (fun _ source =>
                   text <- colorized w a pattern source ;;
                   print text ;;; ret tt) tt = (map Print lst, Ret tt)).
  { induction lst as [|s lst IH]; [done|].
    cbn [for_each map]. unfold colorized at 1. rewrite Hplain. cbn [orb].
    rewrite bind_ret_l, !bind_assoc. unfold print at 1.
    by rewrite bind_emit, bind_ret_l, IH. }
  rewrite E. reflexivity.
Qed.
End plain.

(** C4, amended: in content mode with plain rendering, a file with matches
    is printed as the source text of each retained cell, one directly
    after the other, followed by one empty line; there is no header, no
    underline, no separator line, and no escape character that the
    sources do not hold themselves; the retained cells, their order and
    their text are those of the highlighted rendering. *)
Theorem plain_rendering (w : world) (a : args) (pattern : pyval)
    (fn : string) (lst : list string) :
  args_plain a = true ->
  print_hits w a pattern fn lst = (map Print lst ++ [Print ""], Ret tt) /\
  stdout (print_hits w a pattern fn lst).1 = lines lst +:+ newline /\
  (Forall (fun s => has_esc s = false) lst ->
   has_esc (stdout (print_hits w a pattern fn lst).1) = false) /\
  (forall nb,
     nbformat_read w fn (args_nbformat a) = inr nb ->
     args_tags a = false ->
     scan_cells w a pattern nb = ret lst -> lst <> [] ->
     scan_file w a pattern fn =
     (Read fn (args_nbformat a) :: map Print lst ++ [Print ""], Ret tt)) /\
  (forall nb, scan_cells w a pattern nb =
              scan_cells w (with_plain false a) pattern nb).
Proof.
  intros Hplain. rewrite (print_hits_plain _ _ _ Hplain). cbn [fst].
  assert (Hout : stdout (map Print lst ++ [Print ""]) = lines lst +:+ newline).
  { by rewrite stdout_app, stdout_prints. }
  split_and!; [done | done | | | done].
  - intros Hl. rewrite Hout, has_esc_app, (has_esc_lines _ Hl). reflexivity.
  - intros nb Hr Ht Hs Hne. unfold scan_file.
    rewrite Hr, Hs, bind_ret_l, Ht, bind_emit.
    destruct lst; [done|]. cbn [length Nat.ltb Nat.leb].
    by rewrite (print_hits_plain _ _ _ Hplain).
Qed.

Lemma plain_rendering_witness :
  args_plain plain_args = true /\
  print_hits demo_world plain_args PNone "src/deep/two.ipynb" ["a"; "b"] =
  ([Print "a"; Print "b"; Print ""], Ret tt).
Proof.
  split; [reflexivity|].
  exact (proj1 (plain_rendering demo_world plain_args PNone
                  "src/deep/two.ipynb" ["a"; "b"] eq_refl)).
Defined.

(** C4 as stated fails: two retained cells of one file come out on
    consecutive lines, no blank line between them. *)
Lemma plain_rendering_counterexample :
  scan_cells demo_world plain_args PNone two_cells = ret ["a"; "b"] /\
  stdout (scan_file demo_world plain_args PNone "src/deep/two.ipynb").1 =
  "a" +:+ newline +:+ "b" +:+ newline +:+ newline /\
  ~ blank_line_separated ["a"; "b"]
      (stdout (scan_file demo_world plain_args PNone "src/deep/two.ipynb").1).
Proof.
  split; [reflexivity|]. split; [reflexivity|].
  unfold blank_line_separated. vm_compute. discriminate.
Qed.

(** ** Sampling *)

Lemma moved_lookup (pool : list string) (m j i : nat) (y : string) :
  j < m -> m <= length pool -> i < m - 1 ->
  <[j := pool !!! (m - 1)]> pool !! i = Some y ->
  pool !! (if decide (i = j) then m - 1 else i) = Some y.
Proof.
  intros Hj Hm Hi Hl. apply list_lookup_insert_Some in Hl.
  destruct Hl as [(-> & <- & _) | [Hne Hl]].
  - rewrite decide_True by done. apply list_lookup_lookup_total_lt. lia.
  - by rewrite decide_False by done.
Qed.

Lemma sample_pool_spec (k : nat) : forall draws (pool : list string) (m : nat),
  k <= m -> m <= length pool -> NoDup (take m pool) ->
  length (sample_pool draws pool m k) = k /\
  NoDup (sample_pool draws pool m k) /\
  sample_pool draws pool m k ⊆ take m pool.
Proof.
  induction k as [|k IH]; intros draws pool m Hk Hm Hn.
  { simpl. split_and!; [done | constructor | by intros ? ?%elem_of_nil]. }
  cbn [sample_pool].
  set (j := hd 0 draws `mod` m).
  assert (Hj : j < m) by (apply Nat.mod_upper_bound; lia).
  clearbody j.
  set (pool' := <[j := pool !!! (m - 1)]> pool).
  assert (Hx : pool !! j = Some (pool !!! j))
    by (apply list_lookup_lookup_total_lt; lia).
  assert (Hmoved : forall i y, take (m - 1) pool' !! i = Some y ->
            i < m - 1 /\ pool !! (if decide (i = j) then m - 1 else i) = Some y).
  { intros i y [Hl Hi]%lookup_take_Some. split; [done|].
    by apply moved_lookup. }
  assert (Hin : forall i y, i < m -> pool !! i = Some y ->
            take m pool !! i = Some y).
  { intros i y Hi Hl. by apply lookup_take_Some. }
  destruct (IH (tl draws) pool' (m - 1)) as (Hlen & Hnd & Hsub).
  - lia.
  - unfold pool'. rewrite length_insert. lia.
  - apply NoDup_alt. intros i1 i2 y [Hi1 H1]%Hmoved [Hi2 H2]%Hmoved.
    assert ((if decide (i1 = j) then m - 1 else i1) =
            (if decide (i2 = j) then m - 1 else i2)) as E.
    { apply (NoDup_lookup (take m pool) _ _ y Hn);
        (apply Hin; [repeat case_decide; lia | done]). }
    repeat case_decide; lia.
  - split_and!.
    + simpl. by rewrite Hlen.
    + constructor; [|done]. intros Hr.
      apply Hsub, list_elem_of_lookup in Hr as [i [Hi Hl]%Hmoved].
      assert ((if decide (i = j) then m - 1 else i) = j) as E.
      { apply (NoDup_lookup (take m pool) _ _ (pool !!! j) Hn);
          (apply Hin; [repeat case_decide; lia | done]). }
      repeat case_decide; lia.
    + intros y [->|Hy]%elem_of_cons.
      * apply list_elem_of_lookup. exists j. by apply Hin.
      * apply Hsub, list_elem_of_lookup in Hy as [i [Hi Hl]%Hmoved].
        apply list_elem_of_lookup.
        exists (if decide (i = j) then m - 1 else i).
        apply Hin; [repeat case_decide; lia | done].
Qed.

Lemma random_sample_spec (w : world) (population : list string) (k : Z) :
  NoDup population ->
  if decide (0 <= k <= Z.of_nat (length population))%Z then
    exists l, random_sample w population k = ret l /\
              length l = Z.to_nat k /\ NoDup l /\ l ⊆ population
  else exists msg, random_sample w population k = raise (ValueError msg).
Proof.
  intros Hn. unfold random_sample. case_decide as Hk.
  - assert ((0 <=? k)%Z && (k <=? Z.of_nat (length population))%Z = true) as ->.
    { apply andb_true_iff. split; apply Z.leb_le; lia. }
    eexists. split; [done|].
    destruct (sample_pool_spec (Z.to_nat k) (random_draws w) population
                (length population)) as (? & ? & Hs); [lia | done | |].
    + by rewrite firstn_all.
    + rewrite firstn_all in Hs. done.
  - assert ((0 <=? k)%Z && (k <=? Z.of_nat (length population))%Z = false) as ->.
    { apply andb_false_iff.
      destruct (decide (0 <= k)%Z); [right | left];
        [apply Z.leb_gt | apply Z.leb_gt]; lia. }
    eauto.
Qed.

(** Every arrangement of distinct elements of the pool is the choice some
    numbers code. *)
Lemma sample_pool_reaches (l : list string) : forall (pool : list string) (m : nat),
  m <= length pool -> NoDup (take m pool) -> NoDup l -> l ⊆ take m pool ->
  exists draws, sample_pool draws pool m (length l) = l.
Proof.
  induction l as [|x l IH]; intros pool m Hm Hn Hl Hsub.
  { by exists []. }
  apply NoDup_cons in Hl as [Hx Hl].
  assert (Hxin : x ∈ take m pool) by (apply Hsub; by left).
  apply list_elem_of_lookup in Hxin as [j [Hj Hjm]%lookup_take_Some].
  set (pool' := <[j := pool !!! (m - 1)]> pool).
  assert (Hin : forall i y, i < m -> pool !! i = Some y ->
            take m pool !! i = Some y).
  { intros i y Hi Hy. by apply lookup_take_Some. }
  destruct (IH pool' (m - 1)) as [draws Hd].
  - unfold pool'. rewrite length_insert. lia.
  - apply NoDup_alt. intros i1 i2 y [H1 Hi1]%lookup_take_Some
      [H2 Hi2]%lookup_take_Some.
    apply moved_lookup in H1; [|lia..]. apply moved_lookup in H2; [|lia..].
    assert ((if decide (i1 = j) then m - 1 else i1) =
            (if decide (i2 = j) then m - 1 else i2)) as E.
    { apply (NoDup_lookup (take m pool) _ _ y Hn);
        (apply Hin; [repeat case_decide; lia | done]). }
    repeat case_decide; lia.
  - done.
  - intros y Hy.
    assert (Hyin : y ∈ take m pool) by (apply Hsub; by right).
    apply list_elem_of_lookup in Hyin as [i [Hi Him]%lookup_take_Some].
    assert (Hij : i <> j).
    { intros ->. rewrite Hj in Hi. injection Hi as ->. done. }
    apply list_elem_of_lookup.
    destruct (decide (i = m - 1)) as [->|Hne].
    + exists j. apply lookup_take_Some. split; [|lia].
      unfold pool'. apply list_lookup_insert_Some. left.
      split_and!; [done | | lia].
      by apply list_lookup_total_correct.
    + exists i. apply lookup_take_Some. split; [|lia].
      unfold pool'. apply list_lookup_insert_Some. right. by split.
  - exists (j :: draws). cbn [sample_pool length hd tl].
    rewrite (Nat.mod_small j m) by done.
    fold pool'. rewrite Hd. f_equal. by apply list_lookup_total_correct.
Qed.

Lemma iteration_order_spec (order : list nat) (s : gset string) :
  NoDup (iteration_order order s) /\ iteration_order order s ≡ₚ elements s.
Proof.
  unfold iteration_order.
  destruct (sample_pool_spec (length (elements s)) order (elements s)
              (length (elements s))) as (Hlen & Hnd & Hsub); [done | done | |].
  { rewrite firstn_all. apply NoDup_elements. }
  rewrite firstn_all in Hsub. split; [done|].
  apply submseteq_length_Permutation.
  - by apply NoDup_submseteq.
  - by rewrite Hlen.
Qed.

(** Every order of the elements of a set is the iteration order some
    numbers code. *)
Lemma iteration_order_reaches (s : gset string) (l : list string) :
  l ≡ₚ elements s -> exists order, iteration_order order s = l.
Proof.
  intros Hp.
  assert (length (elements s) = length l) as E by (by rewrite Hp).
  destruct (sample_pool_reaches l (elements s) (length (elements s)))
    as [order Ho].
  - done.
  - rewrite firstn_all. apply NoDup_elements.
  - rewrite Hp. apply NoDup_elements.
  - rewrite firstn_all. intros x. by rewrite Hp.
  - exists order. rewrite <- E in Ho. exact Ho.
Qed.

Lemma random_sample_of_set_spec (w : world) (order : list nat)
    (s : gset string) (k : Z) :
  if sample_takes_sets w then
    if decide (0 <= k <= Z.of_nat (size s))%Z then
      exists l, random_sample_of_set w order s k = ret l /\
                length l = Z.to_nat k /\ NoDup l /\ l ⊆ elements s
    else random_sample_of_set w order s k =
         raise (ValueError "Sample larger than population or is negative")
  else random_sample_of_set w order s k =
       raise (TypeError
                "Population must be a sequence.  For dicts or sets, use sorted(d).").
Proof.
  unfold random_sample_of_set. destruct (sample_takes_sets w); [|done].
  destruct (iteration_order_spec order s) as [Hnd Hp].
  pose proof (random_sample_spec w (iteration_order order s) k Hnd) as Hs.
  assert (Hlen : length (iteration_order order s) = size s)
    by (by rewrite Hp).
  rewrite Hlen in Hs. case_decide.
  - destruct Hs as (l & ? & ? & ? & Hsub). exists l. split_and!; try done.
    intros x Hx. rewrite <- Hp. by apply Hsub.
  - destruct Hs as (msg & Hs). unfold random_sample in *.
    destruct (_ && _); [done|]. done.
Qed.

Lemma build_with_random (w : world) (a : args) (n : option Z) :
  build_file_list w (with_random n a) =
  if forallb (isfile w) (args_files a) then
    if decide (selected w a = []) then ([Print "No files to scan"], Exit 1)
    else if Py.truthy_opt_int n then
      l <- random_sample_of_set w (file_order w a) (list_to_set (selected w a))
             (default 0%Z n) ;;
      ret (Py.sorted l)
    else ret (file_list w a)
  else (missing_report w a, Exit 1).
Proof. exact (build_file_list_cases w (with_random n a)). Qed.

(** [--random 0] counts as no [--random]. *)
Lemma random_zero_is_no_sample (w : world) (a : args) :
  build_file_list w (with_random (Some 0%Z) a) =
  build_file_list w (with_random None a).
Proof. reflexivity. Qed.




Example sample_of_two :
  build_file_list demo_world (with_random (Some 2%Z) mixed_search) =
  ret ["src/deep/two.ipynb"; "submitted/hermione/hello/hello.ipynb"].
Proof. vm_compute. reflexivity. Qed.

(** * Further properties *)

(** ** What [build_file_list] returns *)

Lemma sorted_perm (l1 l2 : list string) :
  l1 ≡ₚ l2 -> Py.sorted l1 = Py.sorted l2.
Proof.
  intros Hp. unfold Py.sorted.
  apply (StronglySorted_unique String.le);
    [apply StronglySorted_merge_sort; apply _ ..|].
  by rewrite !merge_sort_Permutation.
Qed.

Lemma elem_of_sorted (l : list string) (x : string) : x ∈ Py.sorted l <-> x ∈ l.
Proof. unfold Py.sorted. by rewrite merge_sort_Permutation. Qed.

Lemma elem_of_file_list (w : world) (a : args) (p : string) :
  p ∈ file_list w a <-> p ∈ selected w a.
Proof. unfold file_list. by rewrite elem_of_sorted, elem_of_remove_dups. Qed.

(** What a successful [build_file_list] has gone through. *)
Lemma build_file_list_inv (w : world) (a : args) tr l :
  build_file_list w a = (tr, Ret l) ->
  tr = [] /\ forallb (isfile w) (args_files a) = true /\ selected w a <> [] /\
  if Py.truthy_opt_int (args_random a)
  then exists l0, l = Py.sorted l0 /\ NoDup l0 /\ l0 ⊆ file_list w a /\
                  (1 <= length l0)%nat /\
                  Z.of_nat (length l0) = default 0%Z (args_random a)
  else l = file_list w a.
Proof.
  rewrite build_file_list_cases.
  destruct (forallb (isfile w) (args_files a)); [|done].
  destruct (decide (selected w a = [])) as [|Hne]; [done|].
  destruct (Py.truthy_opt_int (args_random a)) eqn:Hr.
  - set (S := list_to_set (selected w a) : gset string).
    pose proof (random_sample_of_set_spec w (file_order w a) S
                  (default 0%Z (args_random a))) as Hs.
    destruct (sample_takes_sets w); [|by rewrite Hs].
    case_decide as Hk.
    + destruct Hs as (l0 & -> & Hlen & Hnd & Hsub). rewrite bind_ret_l.
      intros [= <- <-]. split_and!; try done. exists l0.
      assert (default 0%Z (args_random a) <> 0%Z) as Hnz.
      { destruct (args_random a) as [n|]; [|done]. simpl in *.
        by apply negb_true_iff, Z.eqb_neq in Hr. }
      split_and!; [done | done | | lia | lia].
      intros x Hx. apply elem_of_file_list. apply Hsub in Hx.
      unfold S in Hx. by rewrite elem_of_elements, elem_of_list_to_set in Hx.
    + by rewrite Hs.
  - by intros [= <- <-].
Qed.

Lemma file_list_nonempty (w : world) (a : args) :
  selected w a <> [] -> file_list w a <> [].
Proof.
  intros Hne Hnil. destruct (selected w a) as [|x l] eqn:E; [done|].
  assert (x ∈ file_list w a) as Hx.
  { apply elem_of_file_list. rewrite E. by left. }
  rewrite Hnil in Hx. by apply elem_of_nil in Hx.
Qed.

(** X1: when [build_file_list] returns a list it has printed nothing, and
    the list is not empty, strictly increasing and made of selected
    paths, with or without [--random]. *)
Theorem build_file_list_returns (w : world) (a : args)
    (tr : list event) (l : list string) :
  build_file_list w a = (tr, Ret l) ->
  tr = [] /\ l <> [] /\ increasing l /\
  forall p, p ∈ l -> p ∈ selected w a.
Proof.
  intros (-> & Hf & Hne & Hcase)%build_file_list_inv.
  split; [done|].
  destruct (Py.truthy_opt_int (args_random a)).
  - destruct Hcase as (l0 & -> & Hnd & Hsub & Hlen & _). split_and!.
    + intros Hnil. assert (length (Py.sorted l0) = length l0) as Hl.
      { unfold Py.sorted. by rewrite merge_sort_Permutation. }
      rewrite Hnil in Hl. simpl in Hl. lia.
    + by apply sorted_increasing.
    + intros p Hp. rewrite elem_of_sorted in Hp.
      apply elem_of_file_list. exact (Hsub p Hp).
  - subst l. split_and!.
    + by apply file_list_nonempty.
    + apply sorted_increasing, NoDup_remove_dups.
    + intros p. by rewrite elem_of_file_list.
Qed.

Lemma build_file_list_returns_witness :
  build_file_list demo_world mixed_search =
  ([], Ret ["a.ipynb"; "src/deep/two.ipynb"; "src/one.ipynb";
            "submitted/harry/hello/hello.ipynb";
            "submitted/hermione/hello/hello.ipynb"]) /\
  increasing ["a.ipynb"; "src/deep/two.ipynb"; "src/one.ipynb";
              "submitted/harry/hello/hello.ipynb";
              "submitted/hermione/hello/hello.ipynb"].
Proof.
  split; [reflexivity|].
  exact (proj1 (proj2 (proj2
    (build_file_list_returns demo_world mixed_search [] _ eq_refl)))).
Defined.

Lemma endswith_app (x s suffix : string) :
  Py.endswith s suffix = true -> Py.endswith (x +:+ s) suffix = true.
Proof.
  intros H. induction x as [|c x IH]; [done|].
  rewrite string_app_cons, endswith_cons, IH. apply orb_true_r.
Qed.

Lemma endswith_join (d f suffix : string) :
  Py.endswith f suffix = true ->
  Py.endswith (Py.os_path_join d f) suffix = true.
Proof.
  intros H. unfold Py.os_path_join.
  destruct (Py.startswith f "/"); [done|].
  destruct (String.eqb d "" || Py.endswith d "/");
    repeat apply endswith_app; done.
Qed.

(** X2: every path [build_file_list] returns is an explicit path that
    names a regular file or ends in [.ipynb]; an explicit path needs no
    such ending. *)
Theorem returned_paths_are_notebooks (w : world) (a : args)
    (tr : list event) (l : list string) (p : string) :
  build_file_list w a = (tr, Ret l) -> p ∈ l ->
  (p ∈ args_files a /\ isfile w p = true) \/ Py.endswith p ".ipynb" = true.
Proof.
  intros (_ & Hf & _ & Hcase)%build_file_list_inv Hp.
  assert (p ∈ selected w a) as Hs.
  { destruct (Py.truthy_opt_int (args_random a)).
    - destruct Hcase as (l0 & -> & _ & Hsub & _).
      rewrite elem_of_sorted in Hp. apply elem_of_file_list. exact (Hsub p Hp).
    - subst l. by apply elem_of_file_list. }
  apply elem_of_selected in Hs
    as [?|[(dn & n & d & f & _ & _ & _ & He & _ & ->)
          |(n & d & f & g & _ & _ & _ & He & _ & _ & ->)]];
    [by left | right; by apply endswith_join ..].
Qed.

Lemma returned_paths_are_notebooks_witness :
  build_file_list demo_world mixed_search =
  ([], Ret ["a.ipynb"; "src/deep/two.ipynb"; "src/one.ipynb";
            "submitted/harry/hello/hello.ipynb";
            "submitted/hermione/hello/hello.ipynb"]) /\
  (("src/one.ipynb" ∈ args_files mixed_search /\
    isfile demo_world "src/one.ipynb" = true) \/
   Py.endswith "src/one.ipynb" ".ipynb" = true).
Proof.
  split; [reflexivity|].
  refine (returned_paths_are_notebooks demo_world mixed_search []
            ["a.ipynb"; "src/deep/two.ipynb"; "src/one.ipynb";
             "submitted/harry/hello/hello.ipynb";
             "submitted/hermione/hello/hello.ipynb"]
            "src/one.ipynb" eq_refl _).
  apply list_elem_of_In. simpl. tauto.
Defined.

(** ** The file list depends on sets *)

Lemma forallb_same_elements {A} (f : A -> bool) (l1 l2 : list A) :
  (forall x, x ∈ l1 <-> x ∈ l2) -> forallb f l1 = forallb f l2.
Proof.
  intros H. apply eq_true_iff_eq. rewrite !forallb_forall.
  split; intros Hf x Hx%list_elem_of_In; apply Hf, list_elem_of_In, H, Hx.
Qed.

Lemma gathered_same_elements (w : world) (a1 a2 : args) :
  (forall x, x ∈ args_files a1 <-> x ∈ args_files a2) ->
  (forall x, x ∈ default [] (args_dir a1) <-> x ∈ default [] (args_dir a2)) ->
  (forall x, x ∈ default [] (args_submitted a1) <->
             x ∈ default [] (args_submitted a2)) ->
  gathered w a1 = gathered w a2.
Proof.
  intros Hf Hd Hs. rewrite !gathered_selected. apply set_eq. intros p.
  rewrite !elem_of_list_to_set, !elem_of_selected.
  apply or_iff_both; [by rewrite Hf | apply or_iff_both].
  - split; intros (dn & n & d & f & Hdn & H); exists dn, n, d, f;
      (split; [by apply Hd | done]).
  - split; intros (n & d & f & g & Hg & H); exists n, d, f, g;
      (split; [by apply Hs | done]).
Qed.

(** X3: when the explicit files exist and no sample is asked for, the
    result of [build_file_list] depends on the explicit files, on the
    [--dir] roots and on the group names only as sets: their order and
    their repetitions do not count. *)
Theorem file_list_of_sets (w : world) (a1 a2 : args) :
  (forall x, x ∈ args_files a1 <-> x ∈ args_files a2) ->
  (forall x, x ∈ default [] (args_dir a1) <-> x ∈ default [] (args_dir a2)) ->
  (forall x, x ∈ default [] (args_submitted a1) <->
             x ∈ default [] (args_submitted a2)) ->
  Py.truthy_opt_int (args_random a1) = false ->
  Py.truthy_opt_int (args_random a2) = false ->
  forallb (isfile w) (args_files a1) = true ->
  build_file_list w a1 = build_file_list w a2.
Proof.
  intros Hf Hd Hs Hr1 Hr2 Hall. rewrite !build_file_list_gathered.
  rewrite <- (forallb_same_elements (isfile w) _ _ Hf), Hall.
  by rewrite (gathered_same_elements w a1 a2 Hf Hd Hs), Hr1, Hr2.
Qed.

Lemma file_list_of_sets_witness :
  build_file_list demo_world
    (with_dir (Some ["src"; ".sync"; "src"]) two_notebooks) =
  build_file_list demo_world
    (with_files ["src/one.ipynb"; "a.ipynb"; "a.ipynb"]
       (with_dir (Some [".sync"; "src"]) two_notebooks)).
Proof.
  apply file_list_of_sets; try reflexivity.
  - intros x. cbn. rewrite !elem_of_cons, !elem_of_nil. tauto.
  - intros x. cbn. rewrite !elem_of_cons, !elem_of_nil. tauto.
Defined.

(** With [--random] the order of the explicit files counts: the sample is
    taken in the tuple the set gives, whose order follows the insertions. *)
Example sample_follows_insertions :
  build_file_list demo_world
    (with_random (Some 1%Z)
       (with_files ["src/one.ipynb"; "a.ipynb"; "src/deep/two.ipynb"] no_args)) =
  ret ["a.ipynb"] /\
  build_file_list demo_world
    (with_random (Some 1%Z)
       (with_files ["src/one.ipynb"; "src/deep/two.ipynb"; "a.ipynb"] no_args)) =
  ret ["src/one.ipynb"].
Proof. split; vm_compute; reflexivity. Qed.

(** ** [add_files_in_dir] only adds *)

(** X4: [add_files_in_dir] only adds to the set it is given, what it adds
    does not depend on that set, walking the same roots again adds
    nothing, and walking two lists of roots in turn is walking their
    concatenation. *)
Theorem add_files_in_dir_grows (w : world) (files : gset string)
    (dirnames : list string) (projects : option (list string)) :
  add_files_in_dir w files dirnames projects =
  files ∪ add_files_in_dir w ∅ dirnames projects /\
  files ⊆ add_files_in_dir w files dirnames projects /\
  add_files_in_dir w (add_files_in_dir w files dirnames projects)
    dirnames projects =
  add_files_in_dir w files dirnames projects /\
  forall more,
    add_files_in_dir w files (dirnames ++ more) projects =
    add_files_in_dir w (add_files_in_dir w files dirnames projects)
      more projects.
Proof.
  split_and!.
  - apply set_eq. intros x.
    rewrite elem_of_union, !elem_of_add_files_in_dir, elem_of_empty. tauto.
  - intros x Hx. apply elem_of_add_files_in_dir. by left.
  - apply set_eq. intros x. rewrite !elem_of_add_files_in_dir. tauto.
  - intros more. unfold add_files_in_dir. by rewrite foldl_app.
Qed.

(** ** Sampling at the bounds *)

Lemma file_list_elements (w : world) (a : args) :
  file_list w a ≡ₚ elements (list_to_set (selected w a) : gset string).
Proof.
  unfold file_list, Py.sorted. rewrite merge_sort_Permutation.
  apply NoDup_Permutation; [apply NoDup_remove_dups | apply NoDup_elements |].
  intros x. by rewrite elem_of_elements, elem_of_list_to_set, elem_of_remove_dups.
Qed.

Lemma sorted_file_list (w : world) (a : args) :
  Py.sorted (file_list w a) = file_list w a.
Proof.
  unfold file_list at 2. apply sorted_perm. unfold file_list, Py.sorted.
  by rewrite merge_sort_Permutation.
Qed.

(** X5: under a Python whose [random.sample] takes a set, a sample of
    the size of the whole file set is the whole file set. *)
Theorem sample_of_everything (w : world) (a : args)
    (tr : list event) (full : list string) :
  sample_takes_sets w = true ->
  build_file_list w (with_random None a) = (tr, Ret full) ->
  build_file_list w (with_random (Some (Z.of_nat (length full))) a) =
  (tr, Ret full).
Proof.
  intros Hv Hfull. rewrite build_with_random in Hfull. rewrite build_with_random.
  destruct (forallb (isfile w) (args_files a)); [|done].
  destruct (decide (selected w a = [])) as [|Hne]; [done|].
  cbn [Py.truthy_opt_int] in Hfull. injection Hfull as <- <-.
  pose proof (file_list_nonempty w a Hne) as Hnil.
  assert (Py.truthy_opt_int (Some (Z.of_nat (length (file_list w a)))) = true)
    as ->.
  { simpl. apply negb_true_iff, Z.eqb_neq.
    destruct (file_list w a); [done | simpl; lia]. }
  change (default 0%Z (Some ?n)) with n.
  set (S := list_to_set (selected w a) : gset string).
  pose proof (file_list_elements w a) as Hperm. fold S in Hperm.
  pose proof (random_sample_of_set_spec w (file_order w a) S
                (Z.of_nat (length (file_list w a)))) as Hs.
  rewrite Hv in Hs.
  rewrite decide_True in Hs by (rewrite Hperm; unfold size, set_size; simpl; lia).
  destruct Hs as (l & -> & Hlen & Hnd & Hsub). rewrite bind_ret_l.
  unfold ret. do 2 f_equal.
  rewrite <- (sorted_file_list w a). apply sorted_perm.
  rewrite Hperm. apply submseteq_length_Permutation.
  - by apply NoDup_submseteq.
  - rewrite <- Hperm. lia.
Qed.

Lemma sample_of_everything_witness :
  sample_takes_sets demo_world = true /\
  build_file_list demo_world (with_random (Some 5%Z) mixed_search) =
  ([], Ret ["a.ipynb"; "src/deep/two.ipynb"; "src/one.ipynb";
            "submitted/harry/hello/hello.ipynb";
            "submitted/hermione/hello/hello.ipynb"]).
Proof.
  split; [reflexivity|].
  exact (sample_of_everything demo_world mixed_search []
           ["a.ipynb"; "src/deep/two.ipynb"; "src/one.ipynb";
            "submitted/harry/hello/hello.ipynb";
            "submitted/hermione/hello/hello.ipynb"] eq_refl eq_refl).
Defined.

(** X6: a negative [--random] is not taken for no [--random]: nothing is
    printed and the run ends with an exception of [random.sample], its
    [ValueError] under a Python whose [random.sample] takes a set, its
    [TypeError] under a later one. *)
Theorem negative_sample_fails (w : world) (a : args) (N : Z)
    (tr : list event) (full : list string) :
  build_file_list w (with_random None a) = (tr, Ret full) ->
  (N < 0)%Z ->
  build_file_list w (with_random (Some N) a) =
  ([], Raise
         (if sample_takes_sets w
          then ValueError "Sample larger than population or is negative"
          else TypeError
                 "Population must be a sequence.  For dicts or sets, use sorted(d).")).
Proof.
  intros Hfull HN. rewrite build_with_random in Hfull. rewrite build_with_random.
  destruct (forallb (isfile w) (args_files a)); [|done].
  destruct (decide (selected w a = [])); [done|].
  assert (Py.truthy_opt_int (Some N) = true) as ->.
  { simpl. apply negb_true_iff, Z.eqb_neq. lia. }
  change (default 0%Z (Some N)) with N.
  unfold random_sample_of_set, random_sample.
  destruct (sample_takes_sets w); [|done].
  assert ((0 <=? N)%Z = false) as -> by (apply Z.leb_gt; lia).
  reflexivity.
Qed.

Lemma negative_sample_fails_witness :
  (-1 < 0)%Z /\
  build_file_list demo_world (with_random (Some (-1)%Z) mixed_search) =
  ([], Raise (ValueError "Sample larger than population or is negative")) /\
  build_file_list later_world (with_random (Some (-1)%Z) mixed_search) =
  ([], Raise (TypeError
                "Population must be a sequence.  For dicts or sets, use sorted(d).")).
Proof.
  split; [lia|]. split.
  - exact (negative_sample_fails demo_world mixed_search (-1) [] _ eq_refl
             ltac:(lia)).
  - exact (negative_sample_fails later_world mixed_search (-1) [] _ eq_refl
             ltac:(lia)).
Defined.

(** ** The empty group name *)

Lemma contains_empty (s : string) : Py.contains s "" = true.
Proof. destruct s; reflexivity. Qed.

Lemma added_in_dir_app (w : world) (d1 d2 : list string)
    (projects : option (list string)) :
  added_in_dir w (d1 ++ d2) projects =
  added_in_dir w d1 projects ++ added_in_dir w d2 projects.
Proof. unfold added_in_dir. apply flat_map_app. Qed.

Lemma added_in_dir_empty_group (w : world) (dirnames groups : list string) :
  "" ∈ groups ->
  added_in_dir w dirnames (Some groups) = added_in_dir w dirnames None.
Proof.
  intros Hg. unfold added_in_dir.
  apply flat_map_ext. intros dn. apply flat_map_ext. intros [[path ds] fnames].
  destruct (Py.contains path "/."); [done|].
  assert (existsb (fun p => Py.contains path p) groups = true) as E.
  { apply existsb_exists. exists "". split; [by apply list_elem_of_In|].
    apply contains_empty. }
  cbn [default from_option id]. rewrite E.
  destruct groups; [by apply elem_of_nil in Hg | done].
Qed.

Lemma insertions_empty_group (w : world) (a : args) (groups : list string) :
  "" ∈ groups ->
  insertions w (with_submitted (Some groups) a) =
  insertions w (with_submitted None
                  (with_dir (Some (default [] (args_dir a) ++ ["submitted"])) a)).
Proof.
  intros Hg. unfold insertions.
  cbn [with_submitted with_dir args_files args_dir args_submitted].
  f_equal.
  assert (Py.truthy_opt_list (Some groups) = true) as ->.
  { destruct groups; [by apply elem_of_nil in Hg | done]. }
  assert (Py.truthy_opt_list
            (Some (default [] (args_dir a) ++ ["submitted"])) = true) as ->.
  { simpl. by destruct (default [] (args_dir a)). }
  cbn [Py.truthy_opt_list default from_option id].
  rewrite app_nil_r, added_in_dir_app, (added_in_dir_empty_group _ _ _ Hg).
  f_equal. destruct (args_dir a) as [[|d ds]|]; reflexivity.
Qed.

(** X7: the empty string as a group name matches every directory:
    [--submitted] with such a name selects what [--dir submitted] selects
    beside the other roots. *)
Theorem empty_group_matches_all (w : world) (a : args) (groups : list string) :
  "" ∈ groups ->
  build_file_list w (with_submitted (Some groups) a) =
  build_file_list w
    (with_submitted None
       (with_dir (Some (default [] (args_dir a) ++ ["submitted"])) a)).
Proof.
  intros Hg. rewrite !build_file_list_gathered.
  unfold file_order. rewrite (insertions_empty_group w a groups Hg).
  cbn [with_submitted with_dir args_files args_random].
  assert (gathered w (with_submitted (Some groups) a) =
          gathered w (with_submitted None
            (with_dir (Some (default [] (args_dir a) ++ ["submitted"])) a)))
    as ->; [|done].
  rewrite !gathered_selected. apply set_eq. intros p.
  rewrite !elem_of_list_to_set, !elem_of_selected.
  cbn [with_submitted with_dir args_files args_dir args_submitted default
       from_option id].
  apply or_iff_compat_l. split.
  - intros [(dn & n & d & f & Hdn & H)|(n & d & f & g & _ & H)].
    + left. exists dn, n, d, f. split; [|done]. apply elem_of_app. by left.
    + left. exists "submitted", n, d, f.
      split; [apply elem_of_app; right; by left|]. tauto.
  - intros [(dn & n & d & f & Hdn & H)|(n & d & f & g & Hnil & _)].
    + apply elem_of_app in Hdn as [Hdn|Hdn].
      * left. exists dn, n, d, f. done.
      * apply list_elem_of_singleton in Hdn as ->. right.
        exists n, d, f, "". rewrite contains_empty. tauto.
    + by apply elem_of_nil in Hnil.
Qed.

Lemma empty_group_matches_all_witness :
  build_file_list demo_world (with_submitted (Some [""]) no_args) =
  ret ["submitted/harry/hello/hello.ipynb";
       "submitted/harry/oop/hello_oop.ipynb";
       "submitted/hermione/hello/hello.ipynb"].
Proof.
  refine (eq_trans
    (empty_group_matches_all demo_world no_args [""] _) eq_refl).
  apply list_elem_of_In. simpl. tauto.
Defined.

(** ** Loops and traces *)

Lemma for_each_app {A S} (l1 l2 : list A) (body : S -> A -> M S) (s : S) :
  for_each (l1 ++ l2) body s =
  (s' <- for_each l1 body s ;; for_each l2 body s').
Proof.
  revert s. induction l1 as [|x l1 IH]; intros s.
  - cbn [app for_each]. by rewrite bind_ret_l.
  - cbn [app for_each]. rewrite bind_assoc. apply bind_ext. intros s'. apply IH.
Qed.

Lemma reads_bind {A B} (m : M A) (f : A -> M B) :
  reads (bind m f).1 =
  reads m.1 ++ match m.2 with Ret x => reads (f x).1 | _ => [] end.
Proof.
  destruct m as [tr [x| |]]; cbn [bind fst snd]; [|by rewrite app_nil_r ..].
  destruct (f x) as [tr' r]. cbn [fst]. apply reads_app.
Qed.


Lemma for_each_quiet {A} (l : list A) (body : unit -> A -> M unit) :
  (forall x, reads (body tt x).1 = []) -> reads (for_each l body tt).1 = [].
Proof.
  intros H. induction l as [|x l IH]; [done|].
  cbn [for_each]. rewrite reads_bind, H.
  destruct (body tt x).2 as [[]| |]; done.
Qed.


Section printing.
Context (w : world) (a : args) (pattern : pyval).

Lemma colorized_trace text : (colorized w a pattern text).1 = [].
Proof.
  unfold colorized. destruct (_ || _); [done|].
  unfold re_sub. destruct pattern; try done.
  by destruct (re_finditer _ _ _).
Qed.


Lemma print_hits_quiet fn lst : reads (print_hits w a pattern fn lst).1 = [].
Proof.
  unfold print_hits. rewrite reads_bind.
  assert (forall t : M unit, reads t.1 = [] ->
            reads (for_each lst
                     (fun _ source =>
                        text <- colorized w a pattern source ;;
                        print text ;;; t) tt ;;; print "").1 = []) as Hloop.
  { intros t Ht. rewrite reads_bind, for_each_quiet.
    - by destruct (for_each _ _ _).2.
    - intros source. rewrite reads_bind, colorized_trace.
      destruct (colorized w a pattern source).2; [|done..].
      rewrite reads_bind. cbn. by rewrite Ht. }
  destruct (args_plain a); cbn [negb].
  - cbn [ret fst snd reads app]. by apply Hloop.
  - cbn [reads]. by apply Hloop.
Qed.


Lemma print_cell_ids_quiet fn lst : reads (print_cell_ids fn lst).1 = [].
Proof.
  unfold print_cell_ids. rewrite !reads_bind. cbn [print emit fst snd reads].
  rewrite for_each_quiet; [|done]. by destruct (for_each _ _ _).2.
Qed.



Lemma scan_file_reads fn : reads (scan_file w a pattern fn).1 = [fn].
Proof.
  unfold scan_file. rewrite reads_bind. cbn [emit fst snd reads app].
  f_equal. destruct (nbformat_read w fn (args_nbformat a)) as [e|nb].
  - by destruct (caught e).
  - rewrite reads_bind, scan_cells_silent.
    destruct (scan_cells w a pattern nb).2 as [ms| |]; [|done..].
    destruct (0 <? length ms)%nat; [|done].
    destruct (args_tags a); [apply print_cell_ids_quiet | apply print_hits_quiet].
Qed.



Lemma scan_files_reads files :
  reads (scan_files w a pattern files).1 `prefix_of` files /\
  ((scan_files w a pattern files).2 = Ret tt ->
   reads (scan_files w a pattern files).1 = files).
Proof.
  induction files as [|fn files [IHp IHe]]; [by split|].
  rewrite scan_files_cons, reads_bind, bind_snd, scan_file_reads.
  destruct (scan_file w a pattern fn).2 as [[]| |].
  - split; [|intros H; by rewrite IHe].
    destruct IHp as [k Hk]. exists k. cbn [app]. by rewrite Hk at 1.
  - split; [|done]. by exists files.
  - split; [|done]. by exists files.
Qed.
End printing.

(** ** The run as a whole *)

(** X8: scanning a list of files is scanning its first part and then
    the rest: the output is the output of the first part followed by that
    of the rest, and an exception in the first part ends the scan there. *)
Theorem scan_files_app (w : world) (a : args) (pattern : pyval)
    (files1 files2 : list string) :
  scan_files w a pattern (files1 ++ files2) =
  (scan_files w a pattern files1 ;;; scan_files w a pattern files2) /\
  ((scan_files w a pattern files1).2 = Ret tt ->
   stdout (scan_files w a pattern (files1 ++ files2)).1 =
   stdout (scan_files w a pattern files1).1 +:+
   stdout (scan_files w a pattern files2).1) /\
  (forall e, (scan_files w a pattern files1).2 = Raise e ->
     scan_files w a pattern (files1 ++ files2) =
     scan_files w a pattern files1).
Proof.
  assert (E : scan_files w a pattern (files1 ++ files2) =
              (scan_files w a pattern files1 ;;;
               scan_files w a pattern files2)).
  { unfold scan_files. rewrite for_each_app. apply bind_ext. by intros []. }
  rewrite E. split_and!; [done | |].
  - intros Hr. rewrite bind_fst, Hr. apply stdout_app.
  - intros e He. destruct (scan_files w a pattern files1) as [tr r].
    cbn [snd] in He. by subst r.
Qed.

Lemma scan_files_app_witness :
  (scan_files demo_world no_args PNone ["broken.ipynb"]).2 = Ret tt /\
  stdout (scan_files demo_world no_args PNone
            (["broken.ipynb"] ++ ["latin.ipynb"])).1 =
  stdout (scan_files demo_world no_args PNone ["broken.ipynb"]).1 +:+
  stdout (scan_files demo_world no_args PNone ["latin.ipynb"]).1.
Proof.
  split; [reflexivity|].
  exact (proj1 (proj2 (scan_files_app demo_world no_args PNone
                         ["broken.ipynb"] ["latin.ipynb"])) eq_refl).
Defined.

Lemma reads_main (w : world) (a : args) :
  reads (main w a).1 =
  match build_file_list w a with
  | (_, Ret lst) =>
      reads (scan_files w a (search_pattern a (typed_pattern w a)) lst).1
  | _ => []
  end.
Proof.
  destruct (build_file_list w a) as [tr [lst| |]] eqn:Hb.
  - rewrite (main_scans _ _ _ _ Hb). cbn [fst].
    rewrite !reads_app, reads_prompt.
    apply build_file_list_inv in Hb as (-> & _). done.
  - rewrite (main_stops _ _ _ _ Hb). cbn [fst].
    rewrite reads_app, reads_prompt.
    rewrite build_file_list_cases in Hb.
    destruct (forallb _ _); [destruct (decide _)|].
    + by injection Hb as <- _.
    + destruct (Py.truthy_opt_int _); [|done].
      unfold random_sample_of_set, random_sample in Hb.
      destruct (sample_takes_sets w); [|done]. by destruct (_ && _).
    + injection Hb as <- _. apply reads_prints.
  - rewrite (main_raises _ _ _ _ Hb). cbn [fst].
    rewrite reads_app, reads_prompt.
    rewrite build_file_list_cases in Hb.
    destruct (forallb _ _); [destruct (decide _)|]; try done.
    destruct (Py.truthy_opt_int _); [|done].
    unfold random_sample_of_set, random_sample in Hb.
    destruct (sample_takes_sets w); [destruct (_ && _); [done|]|];
      by injection Hb as <- _.
Qed.

Lemma build_file_list_increasing (w : world) (a : args) tr l :
  build_file_list w a = (tr, Ret l) -> increasing l.
Proof.
  intros (_ & _ & _ & Hcase)%build_file_list_inv.
  destruct (Py.truthy_opt_int (args_random a)).
  - destruct Hcase as (l0 & -> & Hnd & _). by apply sorted_increasing.
  - subst l. apply sorted_increasing, NoDup_remove_dups.
Qed.

(** X9: whatever the options, the notebooks are handed to the reader in
    strictly increasing order of their paths, so each at most once; all
    of them are selected paths; and a run that ends normally has read
    every file of the list. *)
Theorem notebooks_read_in_order (w : world) (a : args) :
  increasing (reads (main w a).1) /\
  (forall fn, fn ∈ reads (main w a).1 -> fn ∈ selected w a) /\
  (forall tr lst, build_file_list w a = (tr, Ret lst) ->
     (main w a).2 = Ret tt -> reads (main w a).1 = lst).
Proof.
  rewrite reads_main.
  destruct (build_file_list w a) as [tr [lst| |]] eqn:Hb;
    [|split_and!; [constructor | by intros ? ?%elem_of_nil | done] ..].
  destruct (scan_files_reads w a (search_pattern a (typed_pattern w a)) lst)
    as [[k Hk] Hall].
  pose proof (build_file_list_increasing _ _ _ _ Hb) as Hinc.
  split_and!.
  - rewrite Hk in Hinc. by apply StronglySorted_app_1_l in Hinc.
  - intros fn Hfn.
    apply build_file_list_inv in Hb as (_ & _ & _ & Hcase).
    assert (fn ∈ lst) as Hl by (rewrite Hk; apply elem_of_app; by left).
    destruct (Py.truthy_opt_int (args_random a)).
    + destruct Hcase as (l0 & -> & _ & Hsub & _).
      rewrite elem_of_sorted in Hl. apply elem_of_file_list. exact (Hsub fn Hl).
    + subst lst. by apply elem_of_file_list.
  - intros tr' lst' [= <- <-] Hret. apply Hall.
    rewrite (main_scans _ _ _ _ Hb) in Hret. exact Hret.
Qed.

Lemma notebooks_read_in_order_witness :
  build_file_list demo_world broken_notebooks =
  ([], Ret ["a.ipynb"; "broken.ipynb"; "latin.ipynb"]) /\
  (main demo_world broken_notebooks).2 = Ret tt /\
  reads (main demo_world broken_notebooks).1 =
  ["a.ipynb"; "broken.ipynb"; "latin.ipynb"].
Proof.
  split; [reflexivity|]. split; [reflexivity|].
  exact (proj2 (proj2 (notebooks_read_in_order demo_world broken_notebooks))
           [] _ eq_refl eq_refl).
Defined.



Lemma scan_file_tags_plain (w : world) (a : args) (b : bool) pattern fn :
  args_tags a = true ->
  scan_file w (with_plain b a) pattern fn = scan_file w a pattern fn.
Proof.
  intros Ht. unfold scan_file. cbn [with_plain args_nbformat args_tags].
  apply bind_ext. intros _.
  destruct (nbformat_read w fn (args_nbformat a)) as [e|nb]; [done|].
  change (scan_cells w (with_plain b a) pattern nb)
    with (scan_cells w a pattern nb).
  apply bind_ext. intros ms. by rewrite Ht.
Qed.

(** X11: with [--tags], [--plain] changes nothing; a file with tags is
    printed as its path, each tag after three spaces, and an empty line,
    without colours. *)
Theorem tags_mode_ignores_plain (w : world) (a : args) (b : bool) :
  args_tags a = true ->
  main w (with_plain b a) = main w a /\
  (forall pattern files,
     scan_files w (with_plain b a) pattern files =
     scan_files w a pattern files) /\
  forall pattern fn nb tags,
    nbformat_read w fn (args_nbformat a) = inr nb ->
    scan_cells w a pattern nb = ret tags -> tags <> [] ->
    scan_file w a pattern fn =
    (Read fn (args_nbformat a) :: Print fn ::
       map (fun tag => Print ("   " +:+ tag)) tags ++ [Print ""],
     Ret tt).
Proof.
  intros Ht.
  assert (Hfiles : forall pattern files,
            scan_files w (with_plain b a) pattern files =
            scan_files w a pattern files).
  { intros pattern files. unfold scan_files. apply for_each_ext.
    intros _ fn. by apply scan_file_tags_plain. }
  split_and!; [|done|].
  - unfold main. cbn [with_plain args_prompt].
    apply bind_ext. intros pattern.
    change (build_file_list w (with_plain b a)) with (build_file_list w a).
    apply bind_ext. intros lst. apply Hfiles.
  - intros pattern fn nb tags Hr Hs Hne. unfold scan_file.
    rewrite Hr, Hs, bind_ret_l, Ht, bind_emit.
    destruct tags as [|t tags]; [done|]. cbn [length Nat.ltb Nat.leb].
    unfold print_cell_ids, print. rewrite bind_emit. cbn [fst snd].
    assert (forall l, for_each l (fun (_ : unit) tag =>
                        emit (Print ("  " +:+ " " +:+ tag))) tt =
                      (map (fun tag => Print ("   " +:+ tag)) l, Ret tt)) as ->.
    { induction l as [|x l IH]; [done|].
      cbn [for_each map]. by rewrite bind_emit, IH. }
    by rewrite bind_pure.
Qed.

Lemma tags_mode_ignores_plain_witness :
  args_tags tags_only = true /\
  main demo_world (with_plain true (with_files ["a.ipynb"] tags_only)) =
  ([Read "a.ipynb" 4; Print "a.ipynb"; Print "   q1"; Print ""], Ret tt).
Proof.
  split; [reflexivity|].
  exact (eq_trans
    (proj1 (tags_mode_ignores_plain demo_world
              (with_files ["a.ipynb"] tags_only) true eq_refl)) eq_refl).
Defined.

(** ** Filters only remove *)

Lemma sublist_flat_map_filter {A B} (f : A -> list B) (P Q : A -> bool)
    (l : list A) :
  (forall x, P x = true -> Q x = true) ->
  flat_map f (List.filter P l) `sublist_of` flat_map f (List.filter Q l).
Proof.
  intros H. induction l as [|x l IH]; [done|]. cbn [List.filter].
  destruct (P x) eqn:HP.
  - rewrite (H x HP). cbn [flat_map]. by apply sublist_app.
  - destruct (Q x); [|done]. cbn [flat_map]. by apply sublist_inserts_l.
Qed.

Lemma filter_all {A} (P : A -> bool) (l : list A) :
  (forall x, P x = true) -> List.filter P l = l.
Proof.
  intros H. induction l as [|x l IH]; [done|]. cbn. by rewrite H, IH.
Qed.

(** X12: adding a pattern only removes matches, the others keeping their
    order; the matches are taken in order from what the cells contribute;
    and with no filter at all every cell contributes. *)
Theorem filters_only_remove (w : world) (a : args) (pattern : pyval)
    (nb : notebook) :
  usable w pattern ->
  exists with_pattern without_pattern,
    scan_cells w a pattern nb = ret with_pattern /\
    scan_cells w a PNone nb = ret without_pattern /\
    with_pattern `sublist_of` without_pattern /\
    without_pattern `sublist_of` flat_map (contribution a) (cells nb) /\
    (args_code a = false -> args_markdown a = false ->
     Py.truthy_opt_str (args_id a) = false ->
     without_pattern = flat_map (contribution a) (cells nb)).
Proof.
  intros Hu.
  rewrite (scan_cells_passes _ _ _ _ Hu),
    (scan_cells_passes _ _ _ _ (usable_falsy w PNone eq_refl)).
  eexists _, _. split_and!; [done | done | | |].
  - apply sublist_flat_map_filter. intros c. unfold passes.
    intros [Ht _]%andb_true_iff. by rewrite Ht.
  - rewrite <- (filter_all (fun _ => true) (cells nb)) at 2 by done.
    by apply sublist_flat_map_filter.
  - intros Hc Hm Hi. rewrite filter_all; [done|]. intros c.
    unfold passes, type_ok, tag_ok, wanted_cell_type. by rewrite Hc, Hm, Hi.
Qed.

Lemma filters_only_remove_witness :
  usable demo_world (PStr "^#") /\
  exists with_pattern without_pattern,
    scan_cells demo_world no_args (PStr "^#") q1_notebook = ret with_pattern /\
    scan_cells demo_world no_args PNone q1_notebook = ret without_pattern /\
    with_pattern `sublist_of` without_pattern.
Proof.
  split; [exact demo_usable|].
  destruct (filters_only_remove demo_world no_args (PStr "^#") q1_notebook
              demo_usable) as (l1 & l2 & H1 & H2 & H3 & _).
  exists l1, l2. auto.
Defined.

(** ** Colours *)

Lemma has_esc_cons c s : has_esc (String c s) = Ascii.eqb "027" c || has_esc s.
Proof.
  unfold has_esc, esc. by rewrite contains_cons, prefix_cons, prefix_nil,
    andb_true_r.
Qed.

Lemma strip_clean (s t : string) :
  has_esc s = false ->
  strip_escapes false (s +:+ t) = s +:+ strip_escapes false t.
Proof.
  induction s as [|c s IH]; [done|].
  rewrite has_esc_cons. intros [Hc Hs]%orb_false_iff.
  rewrite !string_app_cons. cbn [strip_escapes].
  rewrite Ascii.eqb_sym, Hc. by rewrite IH.
Qed.

Lemma string_app_nil_r (s : string) : s +:+ "" = s.
Proof. induction s as [|c s IH]; [done|]. by rewrite string_app_cons, IH. Qed.

Lemma strip_clean_all (s : string) :
  has_esc s = false -> strip_escapes false s = s.
Proof.
  intros H. rewrite <- (string_app_nil_r s) at 1.
  rewrite strip_clean by done. apply string_app_nil_r.
Qed.

Lemma strip_highlight (text t : string) (cn : nat) :
  cn = 1 \/ cn = 4 ->
  has_esc text = false ->
  strip_escapes false (highlight text cn +:+ t) = text +:+ strip_escapes false t.
Proof.
  intros Hcn Ht. unfold highlight.
  assert (forall rest,
    strip_escapes false (esc +:+ "[03" +:+ pretty cn +:+ "m" +:+ rest) =
    strip_escapes false rest) as Hopen.
  { intros rest. by destruct Hcn as [-> | ->]. }
  rewrite !string_app_assoc, Hopen, strip_clean by done.
  reflexivity.
Qed.

Lemma substring_add (s : string) : forall n m1 m2,
  String.substring n (m1 + m2) s =
  String.substring n m1 s +:+ String.substring (n + m1) m2 s.
Proof.
  induction s as [|c s IH]; intros n m1 m2.
  - destruct n, m1, m2; reflexivity.
  - destruct n as [|n].
    + destruct m1 as [|m1]; [done|].
      cbn [Nat.add String.substring]. by rewrite string_app_cons, (IH 0).
    + cbn [Nat.add String.substring]. apply IH.
Qed.

Lemma has_esc_substring (s : string) : forall n m,
  has_esc s = false -> has_esc (String.substring n m s) = false.
Proof.
  induction s as [|c s IH]; intros n m Hs.
  - by destruct n, m.
  - rewrite has_esc_cons in Hs. apply orb_false_iff in Hs as [Hc Hs].
    destruct n as [|n]; [|by apply IH].
    destruct m as [|m]; [done|]. cbn [String.substring].
    by rewrite has_esc_cons, Hc, IH.
Qed.

Lemma spans_ok_bound spans : forall pos len,
  spans_ok pos spans len = true -> pos <= len.
Proof.
  induction spans as [|[b e] spans IH]; intros pos len H.
  - by apply Nat.leb_le.
  - cbn [spans_ok] in H. apply andb_true_iff in H as [H He].
    apply andb_true_iff in H as [Hb Hbe].
    apply Nat.leb_le in Hb, Hbe. apply IH in He. lia.
Qed.

Lemma strip_splice (text : string) (cn : nat) spans : forall pos t,
  cn = 1 \/ cn = 4 ->
  has_esc text = false ->
  spans_ok pos spans (String.length text) = true ->
  strip_escapes false (splice (fun m => highlight m cn) spans pos text +:+ t) =
  Py.slice text pos (String.length text) +:+ strip_escapes false t.
Proof.
  induction spans as [|[b e] spans IH]; intros pos t Hcn Ht Hok.
  - cbn [splice]. apply strip_clean. by apply has_esc_substring.
  - cbn [splice spans_ok] in *.
    apply andb_true_iff in Hok as [Hok He].
    apply andb_true_iff in Hok as [Hb Hbe].
    apply Nat.leb_le in Hb, Hbe. pose proof (spans_ok_bound _ _ _ He) as Hlen.
    unfold Py.slice in *. rewrite !string_app_assoc.
    rewrite strip_clean by (by apply has_esc_substring).
    rewrite strip_highlight by (done || by apply has_esc_substring).
    rewrite IH by done.
    replace (String.length text - pos)
      with ((b - pos) + ((e - b) + (String.length text - e))) by lia.
    rewrite !substring_add, !string_app_assoc. repeat f_equal; lia.
Qed.

Lemma slice_all (text : string) : Py.slice text 0 (String.length text) = text.
Proof.
  unfold Py.slice. rewrite Nat.sub_0_r.
  induction text as [|c text IH]; [done|]. cbn. by rewrite IH.
Qed.

(** What [colorized] returns, followed by anything, without colours. *)
Lemma colorized_strip (w : world) (a : args) (pattern : pyval) (text : string) :
  usable w pattern ->
  has_esc text = false ->
  (forall p spans, pattern = PStr p -> re_finditer w p text = inr spans ->
     spans_ok 0 spans (String.length text) = true) ->
  exists s, colorized w a pattern text = ret s /\
            forall t, strip_escapes false (s +:+ t) =
                      text +:+ strip_escapes false t.
Proof.
  intros Hu Ht Hspans. unfold colorized.
  destruct (args_plain a || negb (truthy pattern)) eqn:Hp.
  - exists text. split; [done|]. intros t. by apply strip_clean.
  - apply orb_false_iff in Hp as [_ Hp%negb_false_iff].
    destruct (Hu Hp) as (p & -> & Hre). destruct (Hre text) as [spans Hs].
    unfold re_sub. rewrite Hs. eexists. split; [done|]. intros t.
    rewrite strip_splice; [|by right | done | by apply (Hspans p)].
    by rewrite slice_all.
Qed.

(** X13: colouring a source changes nothing but colours: without its
    escape sequences the text [colorized] returns is the source, as long
    as the source holds no escape character and the spans of the matches
    are those of [re.finditer]. *)
Theorem colorized_keeps_text (w : world) (a : args) (pattern : pyval)
    (text : string) :
  usable w pattern ->
  has_esc text = false ->
  (forall p spans, pattern = PStr p -> re_finditer w p text = inr spans ->
     spans_ok 0 spans (String.length text) = true) ->
  exists s, colorized w a pattern text = ret s /\
            strip_escapes false s = text.
Proof.
  intros Hu Ht Hspans.
  destruct (colorized_strip w a pattern text Hu Ht Hspans) as (s & Hs & Hstrip).
  exists s. split; [done|].
  specialize (Hstrip ""). cbn [strip_escapes] in Hstrip.
  by rewrite !string_app_nil_r in Hstrip.
Qed.

Lemma colorized_keeps_text_witness :
  colorized demo_world no_args (PStr "q") "# Q1, q2" =
  ret ("# " +:+ highlight "Q" 4 +:+ "1, " +:+ highlight "q" 4 +:+ "2") /\
  strip_escapes false
    ("# " +:+ highlight "Q" 4 +:+ "1, " +:+ highlight "q" 4 +:+ "2") =
  "# Q1, q2".
Proof.
  destruct (colorized_keeps_text demo_world no_args (PStr "q") "# Q1, q2")
    as (s & Hs & Hstrip).
  - by apply literal_usable.
  - reflexivity.
  - intros p spans [= <-] H. vm_compute in H. injection H as <-. reflexivity.
  - vm_compute in Hs. injection Hs as <-. split; [reflexivity | exact Hstrip].
Defined.

Lemma has_esc_repeat (n : nat) : has_esc (Py.repeat_char "=" n) = false.
Proof. induction n as [|n IH]; [done|]. cbn [Py.repeat_char]. by rewrite has_esc_cons, IH. Qed.

Lemma strip_line (text t : string) :
  has_esc text = false ->
  strip_escapes false (highlight text 1 +:+ newline +:+ t) =
  text +:+ newline +:+ strip_escapes false t.
Proof.
  intros H. rewrite strip_highlight by (done || by left).
  by rewrite (strip_clean newline).
Qed.

(** X14: the highlighted output of a file, without its escape sequences,
    is the path, a line of as many [=] as the path has characters
    ([len(fn)], not the number of its bytes), each source followed by a
    line of nine dashes, and an empty line. *)
Theorem highlighted_output_uncoloured (w : world) (a : args)
    (pattern : pyval) (fn : string) (lst : list string) :
  args_plain a = false ->
  usable w pattern ->
  has_esc fn = false ->
  Forall (fun text =>
            has_esc text = false /\
            forall p spans, pattern = PStr p ->
              re_finditer w p text = inr spans ->
              spans_ok 0 spans (String.length text) = true) lst ->
  (print_hits w a pattern fn lst).2 = Ret tt /\
  strip_escapes false (stdout (print_hits w a pattern fn lst).1) =
  lines (uncoloured_lines fn lst).
Proof.
  intros Hplain Hu Hfn Hlst.
  split; [by apply print_hits_returns|].
  unfold print_hits, uncoloured_lines. rewrite Hplain. cbn [negb].
  unfold print. rewrite !bind_assoc, !bind_emit. cbn [fst stdout shown lines].
  rewrite !string_app_assoc, !strip_line by (done || apply has_esc_repeat).
  do 4 f_equal.
  induction Hlst as [|text lst [Ht Hsp] _ IH].
  - reflexivity.
  - cbn [for_each flat_map app lines].
    destruct (colorized_strip w a pattern text Hu Ht Hsp) as (s & -> & Hs).
    rewrite bind_assoc, bind_ret_l, !bind_assoc, !bind_emit.
    cbn [fst stdout shown]. rewrite ?string_app_assoc, Hs.
    rewrite (strip_clean newline) by done.
    rewrite strip_line by done.
    do 4 f_equal. exact IH.
Qed.

Lemma highlighted_output_uncoloured_witness :
  strip_escapes false
    (stdout (print_hits demo_world no_args (PStr "q") accented_name
               ["# Q1, q2"]).1) =
  lines [accented_name; "======="; "# Q1, q2"; "---------"; ""].
Proof.
  refine (proj2 (highlighted_output_uncoloured demo_world no_args (PStr "q")
                   accented_name ["# Q1, q2"] eq_refl _ eq_refl _)).
  - by apply literal_usable.
  - constructor; [|constructor]. split; [reflexivity|].
    intros p spans [= <-] H. vm_compute in H. injection H as <-. reflexivity.
Defined.
